(** * MyGas account coordinator: a shallow embedding and its properties

    The development follows [custom_components/mygas/coordinator.py].

    - [Py] models the fragment of the Python runtime the coordinator relies
      on: JSON-like values, truthiness, [dict.get], subscripting, and the
      conversions [int(...)] and [float(...)] with the exceptions they raise.
    - The coordinator itself is written in a state-and-exception monad over
      an explicit record of the object's fields, a trace of the remote calls
      it performed and the list of warnings it logged.
    - Names imported by the source from modules that are not part of the
      file ([.const], [.helpers], the remote client) are parameters,
      bundled in the classes [Consts] and [Host]; [Config] and [Billing]
      add what [__init__] and [async_get_bill] need.

    Conventions: [logger.debug] calls are elided (they neither read nor
    change anything the properties speak about); [logger.warning] calls are
    recorded.  Exceptions are the instances of [Exception]; message texts of
    errors raised by the language runtime are abbreviated. *)

From Stdlib Require Import ZArith List String Ascii Bool Lia.
From Stdlib Require Import Floats.SpecFloat.
Import ListNotations.

Local Open Scope string_scope.
Local Open Scope list_scope.

(** ** The Python fragment *)

Module Py.

(** Python floats are IEEE 754 binary64 numbers. *)
Definition prec : Z := 53.
Definition emax : Z := 1024.
Definition float : Type := spec_float.

(** Dictionary keys that occur in the program: integers (account ids) and
    strings (JSON field names). *)
Inductive key : Type :=
| KInt (z : Z)
| KStr (s : string).

#[local] Unset Elimination Schemes.
Inductive value : Type :=
| VNone
| VBool (b : bool)
| VInt (z : Z)
| VFloat (f : float)
| VStr (s : string)
| VList (l : list value)
| VDict (d : list (key * value))
| VDatetime (t : Z).
#[local] Set Elimination Schemes.

(** A dictionary is an association list in insertion order. *)
Definition dict : Type := list (key * value).

(** *** Exceptions *)

Inductive exn_class : Type :=
| MyGasAuthError
| ConfigEntryAuthFailed
| UpdateFailed
| TypeError
| ValueError
| OverflowError
| AttributeError
| KeyError
| IndexError
| AssertionError
| OtherError (name : string).

(** An exception instance: its class and [str(exc)]. *)
Record exn : Type := Exn { exn_cls : exn_class; exn_msg : string }.

Inductive res (A : Type) : Type :=
| Ok (a : A)
| Raise (e : exn).
Arguments Ok {A} a.
Arguments Raise {A} e.

Definition rbind {A B} (r : res A) (k : A -> res B) : res B :=
  match r with
  | Ok a => k a
  | Raise e => Raise e
  end.

Definition class_eqb (c1 c2 : exn_class) : bool :=
  match c1, c2 with
  | MyGasAuthError, MyGasAuthError
  | ConfigEntryAuthFailed, ConfigEntryAuthFailed
  | UpdateFailed, UpdateFailed
  | TypeError, TypeError
  | ValueError, ValueError
  | OverflowError, OverflowError
  | AttributeError, AttributeError
  | KeyError, KeyError
  | IndexError, IndexError
  | AssertionError, AssertionError => true
  | OtherError n1, OtherError n2 => String.eqb n1 n2
  | _, _ => false
  end.

(** *** Truthiness ([bool(v)], as used by [if], [not] and [or]) *)

Definition float_is_zero (f : float) : bool :=
  match f with
  | S754_zero _ => true
  | _ => false
  end.

Definition truthy (v : value) : bool :=
  match v with
  | VNone => false
  | VBool b => b
  | VInt z => negb (z =? 0)%Z
  | VFloat f => negb (float_is_zero f)
  | VStr s => negb (String.eqb s "")
  | VList l => match l with [] => false | _ :: _ => true end
  | VDict d => match d with [] => false | _ :: _ => true end
  | VDatetime _ => true
  end.

(** [a or b] *)
Definition or_ (a b : value) : value := if truthy a then a else b.

Definition is_none (v : value) : bool :=
  match v with VNone => true | _ => false end.

(** *** Dictionaries *)

Definition key_eqb (k1 k2 : key) : bool :=
  match k1, k2 with
  | KInt a, KInt b => (a =? b)%Z
  | KStr a, KStr b => String.eqb a b
  | _, _ => false
  end.

Fixpoint dict_get (d : dict) (k : key) : option value :=
  match d with
  | [] => None
  | (k', v) :: d' => if key_eqb k' k then Some v else dict_get d' k
  end.

(** [d[k] = v]: an existing key keeps its position, a new one goes last. *)
Fixpoint dict_set (d : dict) (k : key) (v : value) : dict :=
  match d with
  | [] => [(k, v)]
  | (k', v') :: d' =>
      if key_eqb k' k then (k', v) :: d' else (k', v') :: dict_set d' k v
  end.

Definition value_of_key (k : key) : value :=
  match k with
  | KInt z => VInt z
  | KStr s => VStr s
  end.

(** The integer a float equals, when there is one. *)
Definition float_integer (f : float) : option Z :=
  match f with
  | S754_zero _ => Some 0%Z
  | S754_finite s m e =>
      let a :=
        if (0 <=? e)%Z then Some (Zpos m * 2 ^ e)%Z
        else if (Zpos m mod 2 ^ (- e) =? 0)%Z then Some (Zpos m / 2 ^ (- e))%Z
        else None in
      match a with
      | Some a => Some (if s then (- a)%Z else a)
      | None => None
      end
  | _ => None
  end.

(** The key a value denotes when used as a subscript of a dictionary
    ([True] is [1], and [1.0] is [1]); [None] for values that equal no
    integer or string key. *)
Definition key_of_value (v : value) : option key :=
  match v with
  | VInt z => Some (KInt z)
  | VBool b => Some (KInt (if b then 1 else 0))
  | VFloat f => option_map KInt (float_integer f)
  | VStr s => Some (KStr s)
  | _ => None
  end.

Definition hashable (v : value) : bool :=
  match v with
  | VList _ | VDict _ => false
  | _ => true
  end.

(** [o.get(k, default)] *)
Definition get (o : value) (k : string) (default : value) : res value :=
  match o with
  | VDict d =>
      Ok (match dict_get d (KStr k) with Some v => v | None => default end)
  | _ => Raise (Exn AttributeError "object has no attribute 'get'")
  end.

(** List subscripting with Python's negative indices. *)
Definition list_index {A} (l : list A) (i : Z) : option A :=
  let n := Z.of_nat (List.length l) in
  if (0 <=? i)%Z then nth_error l (Z.to_nat i)
  else if (0 <=? n + i)%Z then nth_error l (Z.to_nat (n + i))
  else None.

Definition string_index (s : string) (i : Z) : option value :=
  match list_index (list_ascii_of_string s) i with
  | Some c => Some (VStr (String c EmptyString))
  | None => None
  end.

(** The position an integer-like subscript denotes ([True] is [1]). *)
Definition index_of_value (i : value) : option Z :=
  match i with
  | VInt z => Some z
  | VBool b => Some (if b then 1 else 0)%Z
  | _ => None
  end.

(** [o[i]] *)
Definition getitem (o i : value) : res value :=
  match o with
  | VDict d =>
      if hashable i then
        match key_of_value i with
        | Some k =>
            match dict_get d k with
            | Some v => Ok v
            | None => Raise (Exn KeyError "key not found")
            end
        | None => Raise (Exn KeyError "key not found")
        end
      else Raise (Exn TypeError "unhashable type")
  | VList l =>
      match index_of_value i with
      | Some z =>
          match list_index l z with
          | Some v => Ok v
          | None => Raise (Exn IndexError "list index out of range")
          end
      | None => Raise (Exn TypeError "list indices must be integers or slices")
      end
  | VStr s =>
      match index_of_value i with
      | Some z =>
          match string_index s z with
          | Some v => Ok v
          | None => Raise (Exn IndexError "string index out of range")
          end
      | None => Raise (Exn TypeError "string indices must be integers")
      end
  | _ => Raise (Exn TypeError "object is not subscriptable")
  end.

(** [len(o)] *)
Definition len (o : value) : res nat :=
  match o with
  | VList l => Ok (List.length l)
  | VDict d => Ok (List.length d)
  | VStr s => Ok (String.length s)
  | _ => Raise (Exn TypeError "object has no len()")
  end.

(** The elements [for x in o] visits. *)
Definition iter (o : value) : res (list value) :=
  match o with
  | VList l => Ok l
  | VDict d => Ok (map (fun kv => value_of_key (fst kv)) d)
  | VStr s =>
      Ok (map (fun c => VStr (String c EmptyString)) (list_ascii_of_string s))
  | _ => Raise (Exn TypeError "object is not iterable")
  end.

(** *** Numeric conversions *)

(** The integer a finite float truncates to (towards zero). *)
Definition float_trunc (f : float) : option Z :=
  match f with
  | S754_zero _ => Some 0%Z
  | S754_finite s m e =>
      let a := if (0 <=? e)%Z then (Zpos m * 2 ^ e)%Z
               else (Zpos m / 2 ^ (- e))%Z in
      Some (if s then (- a)%Z else a)
  | _ => None
  end.

(** The nearest float (ties to even); infinite when out of range. *)
Definition float_of_Z (z : Z) : float := binary_normalize prec emax z 0 false.

(** The float nearest to [(-1)^neg * m * 10^x], for [0 <= m]. *)
Definition float_of_decimal (neg : bool) (m x : Z) : float :=
  match m with
  | Zpos p =>
      if (0 <=? x)%Z then
        binary_normalize prec emax
          (if neg then (- (m * 10 ^ x))%Z else (m * 10 ^ x)%Z) 0 false
      else
        SFdiv prec emax (S754_finite neg p 0)
              (S754_finite false (Z.to_pos (10 ^ (- x))) 0)
  | _ => S754_zero neg
  end.

Definition is_space (c : ascii) : bool :=
  let n := nat_of_ascii c in
  ((9 <=? n) && (n <=? 13) || (28 <=? n) && (n <=? 32))%nat.

Definition digit_of (c : ascii) : option Z :=
  let n := nat_of_ascii c in
  if ((48 <=? n) && (n <=? 57))%nat then Some (Z.of_nat (n - 48)) else None.

Definition lower (c : ascii) : ascii :=
  let n := nat_of_ascii c in
  if ((65 <=? n) && (n <=? 90))%nat then ascii_of_nat (n + 32) else c.

Fixpoint lstrip (l : list ascii) : list ascii :=
  match l with
  | c :: l' => if is_space c then lstrip l' else l
  | [] => []
  end.

Definition strip (l : list ascii) : list ascii := rev (lstrip (rev (lstrip l))).

(** Reads a group of decimal digits in which single underscores may
    separate two digits.  [acc] is the number read so far and [n] the
    count of digits of this group; returns them with the unread rest. *)
Fixpoint digits (l : list ascii) (acc : Z) (n : nat) : Z * nat * list ascii :=
  match l with
  | c :: l' =>
      match digit_of c with
      | Some d => digits l' (10 * acc + d)%Z (S n)
      | None =>
          if Ascii.eqb c "_" then
            match n, l' with
            | S _, c2 :: _ =>
                match digit_of c2 with
                | Some _ => digits l' acc n
                | None => (acc, n, l)
                end
            | _, _ => (acc, n, l)
            end
          else (acc, n, l)
      end
  | [] => (acc, n, l)
  end.

Definition sign (l : list ascii) : bool * list ascii :=
  match l with
  | c :: l' =>
      if Ascii.eqb c "-" then (true, l')
      else if Ascii.eqb c "+" then (false, l')
      else (false, l)
  | [] => (false, l)
  end.

(** [int(s)] on a string, base ten.  (Strings hold ASCII text; the
    interpreter's configurable cap on the number of digits is left out.) *)
Definition int_of_string (s : string) : option Z :=
  let (neg, l) := sign (strip (list_ascii_of_string s)) in
  match digits l 0 0 with
  | (v, S _, []) => Some (if neg then (- v)%Z else v)
  | _ => None
  end.

Definition exponent (l : list ascii) : option (Z * list ascii) :=
  match l with
  | c :: l' =>
      if Ascii.eqb (lower c) "e" then
        let (eneg, l'') := sign l' in
        match digits l'' 0 0 with
        | (v, S _, rest) => Some ((if eneg then (- v)%Z else v), rest)
        | _ => None
        end
      else Some (0%Z, l)
  | [] => Some (0%Z, l)
  end.

(** [float(s)] on a string. *)
Definition float_of_string (s : string) : option float :=
  let (neg, l) := sign (strip (list_ascii_of_string s)) in
  let word := string_of_list_ascii (map lower l) in
  if String.eqb word "inf" || String.eqb word "infinity" then
    Some (S754_infinity neg)
  else if String.eqb word "nan" then Some S754_nan
  else
    let '(i, ni, r1) := digits l 0 0 in
    let '(m, nf, r2) :=
      match r1 with
      | c :: r => if Ascii.eqb c "." then digits r i 0 else (i, 0%nat, r1)
      | [] => (i, 0%nat, r1)
      end in
    match (ni + nf)%nat, exponent r2 with
    | S _, Some (e, []) => Some (float_of_decimal neg m (e - Z.of_nat nf))
    | _, _ => None
    end.

(** [float(v)] *)
Definition float_ (v : value) : res float :=
  match v with
  | VFloat f => Ok f
  | VInt z =>
      match float_of_Z z with
      | S754_infinity _ =>
          Raise (Exn OverflowError "int too large to convert to float")
      | f => Ok f
      end
  | VBool b => Ok (float_of_Z (if b then 1 else 0))
  | VStr s =>
      match float_of_string s with
      | Some f => Ok f
      | None => Raise (Exn ValueError "could not convert string to float")
      end
  | _ => Raise (Exn TypeError "float() argument must be a string or a real number")
  end.

(** [int(v)] *)
Definition int_ (v : value) : res Z :=
  match v with
  | VInt z => Ok z
  | VBool b => Ok (if b then 1 else 0)%Z
  | VFloat f =>
      match f with
      | S754_nan => Raise (Exn ValueError "cannot convert float NaN to integer")
      | S754_infinity _ =>
          Raise (Exn OverflowError "cannot convert float infinity to integer")
      | _ => match float_trunc f with
             | Some z => Ok z
             | None => Raise (Exn ValueError "cannot convert float to integer")
             end
      end
  | VStr s =>
      match int_of_string s with
      | Some z => Ok z
      | None => Raise (Exn ValueError "invalid literal for int() with base 10")
      end
  | _ => Raise (Exn TypeError "int() argument must be a string or a real number")
  end.

(** [abs(f)] on a float. *)
Definition fabs (f : float) : float := SFabs f.

End Py.

Import Py.

(** ** Names imported from outside the file *)

(** The constants of [.const].  Their values are not part of the file;
    every property below holds for whatever they are, up to the stated
    side conditions. *)
Class Consts : Type := {
  ATTR_ACCOUNT_ID : string;
  ATTR_ALIAS : string;
  ATTR_BALANCE : string;
  ATTR_COUNTERS : string;
  ATTR_ELS : string;
  ATTR_IS_ELS : string;
  ATTR_JNT_ACCOUNT_NUM : string;
  ATTR_LAST_UPDATE_TIME : string;
  ATTR_LSPU_INFO_GROUP : string;
  ATTR_UUID : string;
  CONF_ACCOUNT : string;
  CONF_ACCOUNTS : string;
  CONF_INFO : string;
  DOMAIN : string;
  UPDATE_HOUR_BEGIN : Z;
  UPDATE_HOUR_END : Z
}.

(** A request to the remote service, as issued through the decorated
    methods [_async_get_accounts], [_async_get_els_info],
    [_async_get_lspu_info] and [_async_send_readings]. *)
Inductive api_call : Type :=
| GetAccounts
| GetElsInfo (els_id : Z)
| GetLspuInfo (lspu_id : Z)
| IndicationSend (lspu_id equipment_uuid reading els_id : value).

(** The surroundings of the coordinator: the remote service behind the
    request decorator, the clock, the random generator, and the two
    functions of [.helpers].  [world] is whatever state they depend on. *)
Class Host : Type := {
  world : Type;
  timedelta : Type;
  remote : api_call -> world -> res value * world;
  now : world -> Z;
  random : world -> Z * world;
  get_update_interval : Z -> Z -> Z -> world -> timedelta;
  make_device_id : value -> value -> string
}.

Declare Scope py_scope.
Delimit Scope py_scope with py.

Section Coordinator.

Context {consts : Consts} {host : Host}.

(** ** The coordinator object and the monad of its methods *)

(** A device of the registry is known by its set of identifiers. *)
Definition identifiers : Type := list (string * string).

Record coordinator : Type := {
  data : option dict;
  force_next_update : bool;
  auto_update : bool;
  update_interval : option timedelta;
  devices : string -> option identifiers
}.

Record state : Type := {
  self : coordinator;
  calls : list (api_call * res value);  (* most recent first *)
  warnings : list string;               (* most recent first *)
  env : world
}.

Definition M (A : Type) : Type := state -> res A * state.

Definition ret {A} (a : A) : M A := fun s => (Ok a, s).

Definition bind {A B} (m : M A) (k : A -> M B) : M B :=
  fun s =>
    match m s with
    | (Ok a, s') => k a s'
    | (Raise e, s') => (Raise e, s')
    end.

Definition raise {A} (e : exn) : M A := fun s => (Raise e, s).

Definition lift {A} (r : res A) : M A := fun s => (r, s).

(** [try: m  except Exception as exc: h exc] *)
Definition try_except {A} (m : M A) (h : exn -> M A) : M A :=
  fun s =>
    match m s with
    | (Ok a, s') => (Ok a, s')
    | (Raise e, s') => h e s'
    end.

(** [try: m  finally: f].  An exception of [f] replaces the outcome
    of [m]. *)
Definition finally {A} (m : M A) (f : M unit) : M A :=
  fun s =>
    let (r, s') := m s in
    match f s' with
    | (Ok _, s'') => (r, s'')
    | (Raise e, s'') => (Raise e, s'')
    end.

Definition get_self : M coordinator := fun s => (Ok (self s), s).

Definition set_self (c : coordinator) : M unit :=
  fun s => (Ok tt, {| self := c; calls := calls s;
                      warnings := warnings s; env := env s |}).

Definition with_data (c : coordinator) (d : option dict) : coordinator :=
  {| data := d; force_next_update := force_next_update c;
     auto_update := auto_update c; update_interval := update_interval c;
     devices := devices c |}.

Definition with_force (c : coordinator) (b : bool) : coordinator :=
  {| data := data c; force_next_update := b;
     auto_update := auto_update c; update_interval := update_interval c;
     devices := devices c |}.

Definition with_interval (c : coordinator) (i : option timedelta) : coordinator :=
  {| data := data c; force_next_update := force_next_update c;
     auto_update := auto_update c; update_interval := i;
     devices := devices c |}.

Definition add_warning (msg : string) (s : state) : state :=
  {| self := self s; calls := calls s;
     warnings := msg :: warnings s; env := env s |}.

Definition add_call (c : api_call) (r : res value) (w : world) (s : state)
  : state :=
  {| self := self s; calls := (c, r) :: calls s;
     warnings := warnings s; env := w |}.

Definition with_env (s : state) (w : world) : state :=
  {| self := self s; calls := calls s; warnings := warnings s; env := w |}.

(** [self.logger.warning(msg, ...)] *)
Definition warning (msg : string) : M unit :=
  fun s => (Ok tt, add_warning msg s).

(** A request to the remote service; it is appended to the trace with
    its outcome. *)
Definition request (c : api_call) : M value :=
  fun s =>
    let (r, w) := remote c (env s) in
    (r, add_call c r w s).

(** [dt_util.now()] *)
Definition dt_now : M value := fun s => (Ok (VDatetime (now (env s))), s).

(** [random.randrange(start, stop)] *)
Definition randrange (start stop : Z) : M Z :=
  fun s =>
    if (start <? stop)%Z then
      let (r, w) := random (env s) in
      (Ok (start + r mod (stop - start))%Z, with_env s w)
    else (Raise (Exn ValueError "empty range for randrange()"), s).

Definition assert_ (b : bool) : M unit :=
  if b then ret tt else raise (Exn AssertionError "").

Notation "x <- m ;; k" := (bind m (fun x => k))
  (at level 61, m at next level, right associativity) : py_scope.
Notation "m ;; k" := (bind m (fun _ => k))
  (at level 61, right associativity) : py_scope.
Notation "x <~ r ;; k" := (rbind r (fun x => k))
  (at level 61, r at next level, right associativity) : py_scope.
Local Open Scope py_scope.

(** [for x in l: acc = body acc x], the loop variable threaded. *)
Fixpoint for_each {A B} (l : list A) (body : B -> A -> M B) (acc : B) : M B :=
  match l with
  | [] => ret acc
  | x :: l' => acc' <- body acc x ;; for_each l' body acc'
  end.

(** [d.get(k)] on a dictionary. *)
Definition dget (d : dict) (k : string) : value :=
  match dict_get d (KStr k) with
  | Some v => v
  | None => VNone
  end.

(** ** Response shape ([_get_lspu_list]) *)

Definition _get_lspu_list (accounts_info : value) : list value :=
  match accounts_info with
  | VDict d =>
      let lspu_list :=
        or_ (or_ (or_ (dget d "lspu") (dget d "lspuGroup"))
                 (dget d "lspuInfoGroup"))
            (VList []) in
      match lspu_list with
      | VList l => l
      | _ => []
      end
  | _ => []
  end.

(** ** Balance extraction ([_extract_balance_from_info]) *)

(** The check the source applies to one mapping, first
    [services[0].balance], then [balance]: [Some r] when the function
    returns [float(...)] there ([r] is the outcome of the conversion),
    [None] when the scan goes on. *)
Definition balance_in (item : dict) : option (res float) :=
  let in_services :=
    match dget item "services" with
    | VList (s0 :: _) =>
        match s0 with
        | VDict s0 =>
            if negb (is_none (dget s0 "balance"))
            then Some (float_ (dget s0 "balance"))
            else None
        | _ => None
        end
    | _ => None
    end in
  match in_services with
  | Some r => Some r
  | None =>
      if negb (is_none (dget item "balance"))
      then Some (float_ (dget item "balance"))
      else None
  end.

(** [for item in items: ...] *)
Fixpoint scan_list (items : list value) : option (res float) :=
  match items with
  | [] => None
  | VDict item :: rest =>
      match balance_in item with
      | Some r => Some r
      | None => scan_list rest
      end
  | _ :: rest => scan_list rest
  end.

(** [for _key, items in info.items(): ...] *)
Fixpoint scan_values (values : list value) : option (res float) :=
  match values with
  | [] => None
  | items :: rest =>
      if negb (truthy items) then scan_values rest
      else
        match items with
        | VList l =>
            match scan_list l with
            | Some r => Some r
            | None => scan_values rest
            end
        | VDict d =>
            match balance_in d with
            | Some r => Some r
            | None => scan_values rest
            end
        | _ => scan_values rest
        end
  end.

Definition _extract_balance_from_info (info : value) : res (option float) :=
  match info with
  | VDict d =>
      match scan_values (map snd d) with
      | Some (Ok f) => Ok (Some f)
      | Some (Raise e) =>
          (* except (TypeError, ValueError): return None *)
          match exn_cls e with
          | TypeError | ValueError => Ok None
          | _ => Raise e
          end
      | None => Ok None
      end
  | _ => Ok None
  end.

(** ** Detail fetchers *)

Definition _async_get_accounts : M value := request GetAccounts.
Definition _async_get_els_info (els_id : Z) : M value := request (GetElsInfo els_id).
Definition _async_get_lspu_info (lspu_id : Z) : M value := request (GetLspuInfo lspu_id).

Definition warn_no_els_id : string := "id not found in els info".
Definition warn_no_els_info : string := "Els info for id=%d not retrieved".
Definition warn_no_lspu_id : string := "id not found in lspu info item: %s".
Definition warn_no_lspu_info : string := "Lspu info for %s not retrieved".
Definition warn_no_accounts : string := "Accounts info for %s not retrieved".
Definition warn_no_shape : string :=
  "Account %s: no elsGroup and no lspu list in accounts_info".

(** One turn of the loop of [retrieve_els_accounts_info]. *)
Definition els_step (els_info : dict) (els : value) : M dict :=
  e <- lift (Py.get els "els" (VDict [])) ;;
  els_id <- lift (Py.get e "id" VNone) ;;
  if negb (truthy els_id) then
    warning warn_no_els_id ;; ret els_info
  else
    els_id <- lift (int_ els_id) ;;
    els_item_info <- _async_get_els_info els_id ;;
    if truthy els_item_info then
      ret (dict_set els_info (KInt els_id) els_item_info)
    else
      warning warn_no_els_info ;; ret els_info.

Definition retrieve_els_accounts_info (accounts_info : value) : M value :=
  g <- lift (Py.get accounts_info "elsGroup" VNone) ;;
  els_list <- lift (Py.iter (or_ g (VList []))) ;;
  els_info <- for_each els_list els_step [] ;;
  ret (VDict els_info).

(** One turn of the loop of [retrieve_lspu_accounts_info]. *)
Definition lspu_step (lspu_info : dict) (lspu : value) : M dict :=
  lspu_id <- lift (Py.get lspu "id" VNone) ;;
  if negb (truthy lspu_id) then
    warning warn_no_lspu_id ;; ret lspu_info
  else
    lspu_id <- lift (int_ lspu_id) ;;
    lspu_item_info <- _async_get_lspu_info lspu_id ;;
    if truthy lspu_item_info then
      match lspu_item_info with
      | VList _ => ret (dict_set lspu_info (KInt lspu_id) lspu_item_info)
      | _ => ret (dict_set lspu_info (KInt lspu_id) (VList [lspu_item_info]))
      end
    else
      warning warn_no_lspu_info ;; ret lspu_info.

Definition retrieve_lspu_accounts_info (accounts_info : value) : M value :=
  lspu_info <- for_each (_get_lspu_list accounts_info) lspu_step [] ;;
  ret (VDict lspu_info).

(** ** The poll ([_async_update_data]) *)

(** Lines 204-206 and 216-218: the balance, when one is found. *)
Definition store_balance (new_data : dict) : M dict :=
  balance <- lift (_extract_balance_from_info (dget new_data CONF_INFO)) ;;
  match balance with
  | Some b => ret (dict_set new_data (KStr ATTR_BALANCE) (VFloat (fabs b)))
  | None => ret new_data
  end.

(** Lines 180-228: the shape of [accounts_info] decides how [CONF_INFO]
    is filled in. *)
Definition fill_info (new_data : dict) (accounts_info : value) : M dict :=
  let new_data := dict_set new_data (KStr CONF_ACCOUNTS) accounts_info in
  let els_group :=
    match accounts_info with
    | VDict d => dget d "elsGroup"
    | _ => VNone
    end in
  let lspu_list := _get_lspu_list accounts_info in
  if truthy els_group then
    let new_data := dict_set new_data (KStr ATTR_IS_ELS) (VBool true) in
    info <- retrieve_els_accounts_info accounts_info ;;
    let new_data := dict_set new_data (KStr CONF_INFO) info in
    store_balance new_data
  else if truthy (VList lspu_list) then
    let new_data := dict_set new_data (KStr ATTR_IS_ELS) (VBool false) in
    info <- retrieve_lspu_accounts_info accounts_info ;;
    let new_data := dict_set new_data (KStr CONF_INFO) info in
    store_balance new_data
  else
    warning warn_no_shape ;;
    let new_data := dict_set new_data (KStr CONF_INFO) (VDict []) in
    let new_data := dict_set new_data (KStr ATTR_IS_ELS) (VBool false) in
    ret new_data.

(** The body of the [try] statement.  Every path ends in
    [return new_data]: the [else] clause only logs at debug level. *)
Definition update_try (new_data : dict) : M dict :=
  c <- get_self ;;
  let _data := match data c with Some d => d | None => [] end in
  let accounts_info := dget _data CONF_ACCOUNTS in
  if is_none accounts_info || force_next_update c then
    accounts_info <- _async_get_accounts ;;
    if truthy accounts_info then fill_info new_data accounts_info
    else warning warn_no_accounts ;; ret new_data
  else fill_info new_data accounts_info.

(** The two [except] clauses. *)
Definition update_except (exc : exn) : M dict :=
  match exn_cls exc with
  | MyGasAuthError =>
      raise (Exn ConfigEntryAuthFailed "Incorrect Login or Password")
  | _ =>
      raise (Exn UpdateFailed ("Error communicating with API: " ++ exn_msg exc))
  end.

(** The [finally] clause. *)
Definition update_finally : M unit :=
  c <- get_self ;;
  set_self (with_force c false) ;;
  c <- get_self ;;
  if auto_update c then
    h <- randrange UPDATE_HOUR_BEGIN UPDATE_HOUR_END ;;
    m <- randrange 0 60 ;;
    s <- randrange 0 60 ;;
    i <- (fun st => (Ok (get_update_interval h m s (env st)), st)) ;;
    c <- get_self ;;
    set_self (with_interval c (Some i))
  else
    set_self (with_interval c None).

Definition _async_update_data : M dict :=
  t <- dt_now ;;
  let new_data := [(KStr ATTR_LAST_UPDATE_TIME, t)] in
  finally (try_except (update_try new_data) update_except) update_finally.

(** [DataUpdateCoordinator.async_refresh] of the host platform, as far as
    this file relies on it: the poll runs once; its result becomes
    [self.data] when it succeeds, and [self.data] is kept when it fails. *)
Definition async_refresh : M unit :=
  fun s =>
    match _async_update_data s with
    | (Ok d, s') =>
        (Ok tt, {| self := with_data (self s') (Some d); calls := calls s';
                   warnings := warnings s'; env := env s' |})
    | (Raise _, s') => (Ok tt, s')
    end.

Definition async_force_refresh : M unit :=
  c <- get_self ;;
  set_self (with_force c true) ;;
  async_refresh.

(** ** Account path resolver *)

Definition data_value (c : coordinator) : value :=
  match data c with
  | Some d => VDict d
  | None => VNone
  end.

Definition get_accounts (c : coordinator) : res value :=
  Py.get (data_value c) CONF_INFO (VDict []).

Definition is_els (c : coordinator) : res value :=
  Py.get (data_value c) ATTR_IS_ELS (VBool false).

Definition get_account_number (c : coordinator)
    (account_id lspu_account_id : value) : res value :=
  accounts <~ get_accounts c ;;
  account <~ getitem accounts account_id ;;
  els <~ is_els c ;;
  if truthy els then
    e <~ Py.get account ATTR_ELS (VDict []) ;;
    Py.get e ATTR_JNT_ACCOUNT_NUM VNone
  else
    a <~ getitem account lspu_account_id ;;
    Py.get a CONF_ACCOUNT VNone.

Definition get_lspu_accounts (c : coordinator) (account_id : value) : res value :=
  accounts <~ get_accounts c ;;
  _data <~ getitem accounts account_id ;;
  els <~ is_els c ;;
  if truthy els then getitem _data (VStr ATTR_LSPU_INFO_GROUP)
  else
    Ok (match _data with
        | VList _ => _data
        | _ => VList [_data]
        end).

Definition get_counters (c : coordinator)
    (account_id lspu_account_id : value) : res value :=
  lspu_accounts <~ get_lspu_accounts c account_id ;;
  _accounts <~ getitem lspu_accounts lspu_account_id ;;
  Py.get _accounts ATTR_COUNTERS (VList []).

(** [ids == {e}] for a set [ids]. *)
Definition is_singleton (ids : identifiers) (e : string * string) : bool :=
  match ids with
  | [] => false
  | _ :: _ =>
      forallb (fun x => String.eqb (fst x) (fst e) && String.eqb (snd x) (snd e)) ids
  end.

(** A loop that returns from the function at the first turn whose body
    yields a result. *)
Fixpoint search {A R} (l : list A) (body : A -> res (option R)) : res (option R) :=
  match l with
  | [] => Ok None
  | x :: l' =>
      match body x with
      | Ok None => search l' body
      | r => r
      end
  end.

(** [range(n)], as subscripts. *)
Definition range (n : nat) : list Z := map Z.of_nat (seq 0 n).

Definition path : Type := (value * Z * Z)%type.

(** The innermost loop body of [find_account_by_device_id]. *)
Definition match_counter (c : coordinator) (ids : identifiers)
    (account_id : value) (lspu_account_id counter_id : Z) : res (option path) :=
  _account_number <~ get_account_number c account_id (VInt lspu_account_id) ;;
  counters <~ get_counters c account_id (VInt lspu_account_id) ;;
  counter <~ getitem counters (VInt counter_id) ;;
  _counter_uuid <~ Py.get counter ATTR_UUID VNone ;;
  if negb (truthy _counter_uuid) then Raise (Exn AssertionError "")
  else if is_singleton ids (DOMAIN, make_device_id _account_number _counter_uuid)
  then Ok (Some (account_id, lspu_account_id, counter_id))
  else Ok None.

Definition find_account_by_device_id (c : coordinator) (device_id : string)
  : res (option value * option Z * option Z) :=
  match devices c device_id with
  | None => Raise (Exn AssertionError "")
  | Some ids =>
      accounts <~ get_accounts c ;;
      account_ids <~ Py.iter accounts ;;
      found <~ search account_ids (fun account_id =>
        lspu_accounts <~ get_lspu_accounts c account_id ;;
        n <~ Py.len lspu_accounts ;;
        search (range n) (fun lspu_account_id =>
          counters <~ get_counters c account_id (VInt lspu_account_id) ;;
          m <~ Py.len counters ;;
          search (range m) (match_counter c ids account_id lspu_account_id))) ;;
      match found with
      | Some (a, s, k) => Ok (Some a, Some s, Some k)
      | None => Ok (None, None, None)
      end
  end.

(** ** Command dispatch ([async_send_readings]) *)

Definition assert_some {A} (o : option A) : M A :=
  match o with
  | Some a => ret a
  | None => raise (Exn AssertionError "")
  end.

Definition _async_send_readings (lspu_id equipment_uuid reading els_id : value)
  : M value :=
  request (IndicationSend lspu_id equipment_uuid reading els_id).

Definition async_send_readings (device_id : string) (reading : value) : M value :=
  c <- get_self ;;
  device <- lift (find_account_by_device_id c device_id) ;;
  let '(account_id, lspu_account_id, counter_id) := device in
  account_id <- assert_some account_id ;;
  counter_id <- assert_some counter_id ;;
  lspu_account_id <- assert_some lspu_account_id ;;
  lspu_accounts <- lift (get_lspu_accounts c account_id) ;;
  assert_ (truthy lspu_accounts) ;;
  lspu_account <- lift (getitem lspu_accounts (VInt lspu_account_id)) ;;
  assert_ (truthy lspu_account) ;;
  lspu_id <- lift (getitem lspu_account (VStr ATTR_ACCOUNT_ID)) ;;
  els <- lift (is_els c) ;;
  let els_id := if truthy els then account_id else VNone in
  counters <- lift (get_counters c account_id (VInt lspu_account_id)) ;;
  assert_ (truthy counters) ;;
  counter <- lift (getitem counters (VInt counter_id)) ;;
  equipment_uuid <- lift (getitem counter (VStr ATTR_UUID)) ;;
  assert_ (truthy equipment_uuid) ;;
  _async_send_readings lspu_id equipment_uuid reading els_id.

(** ** Vocabulary of the properties *)

(** Of the values under [lspu], [lspuGroup] and [lspuInfoGroup], in this
    order, the first that satisfies [p]; the list it is, or the empty
    list when it is none or not a list. *)
Definition first_where (p : value -> bool) (d : dict) : value :=
  match find p [dget d "lspu"; dget d "lspuGroup"; dget d "lspuInfoGroup"] with
  | Some v => v
  | None => VNone
  end.

Definition lspu_list_by (p : value -> bool) (accounts_info : value) : list value :=
  match accounts_info with
  | VDict d =>
      match first_where p d with
      | VList l => l
      | _ => []
      end
  | _ => []
  end.

(** The two account shapes and what distinguishes their detail fetchers. *)
Inductive shape : Type := ELS | LSPU.

Definition step (sh : shape) : dict -> value -> M dict :=
  match sh with
  | ELS => els_step
  | LSPU => lspu_step
  end.

(** Where the account id of a list item is looked up. *)
Definition item_id (sh : shape) (item : value) : res value :=
  match sh with
  | ELS => e <~ Py.get item "els" (VDict []) ;; Py.get e "id" VNone
  | LSPU => Py.get item "id" VNone
  end.

Definition detail_call (sh : shape) (id : Z) : api_call :=
  match sh with
  | ELS => GetElsInfo id
  | LSPU => GetLspuInfo id
  end.

Definition stored (sh : shape) (detail : value) : value :=
  match sh, detail with
  | ELS, _ => detail
  | LSPU, VList _ => detail
  | LSPU, _ => VList [detail]
  end.

Definition warn_id (sh : shape) : string :=
  match sh with
  | ELS => warn_no_els_id
  | LSPU => warn_no_lspu_id
  end.

Definition warn_info (sh : shape) : string :=
  match sh with
  | ELS => warn_no_els_info
  | LSPU => warn_no_lspu_info
  end.

Definition has_key (d : dict) (k : key) : bool :=
  match dict_get d k with
  | Some _ => true
  | None => false
  end.

(** The raw accounts a poll finds in [self.data]. *)
Definition cached_accounts (c : coordinator) : value :=
  dget (match data c with Some d => d | None => [] end) CONF_ACCOUNTS.

(** What every poll leaves behind: cached raw accounts are absent or
    truthy, so that "empty" and "absent" coincide. *)
Definition cache_ok (c : coordinator) : Prop :=
  is_none (cached_accounts c) || truthy (cached_accounts c) = true.

(** The keys the poll writes after [CONF_ACCOUNTS] differ from it and
    from each other. *)
Definition keys_distinct : bool :=
  negb (String.eqb CONF_ACCOUNTS ATTR_IS_ELS)
  && negb (String.eqb CONF_ACCOUNTS CONF_INFO)
  && negb (String.eqb CONF_ACCOUNTS ATTR_BALANCE)
  && negb (String.eqb ATTR_IS_ELS CONF_INFO)
  && negb (String.eqb ATTR_IS_ELS ATTR_BALANCE)
  && negb (String.eqb CONF_INFO ATTR_BALANCE).

(** The condition a poll fails with when its [try] body raises [exc]. *)
Definition poll_failure (exc : exn) : exn :=
  if class_eqb (exn_cls exc) MyGasAuthError
  then Exn ConfigEntryAuthFailed "Incorrect Login or Password"
  else Exn UpdateFailed ("Error communicating with API: " ++ exn_msg exc).

(** The requests a run of [m] from [s] added to the trace. *)
Definition added {A} (m : M A) (s : state) (new : list (api_call * res value))
  : Prop :=
  calls (snd (m s)) = new ++ calls s.

(** [m] only issues requests in [P], stops at the first request that
    raises, with that very exception, and leaves the object alone. *)
Definition traced {A} (P : api_call -> Prop) (m : M A) : Prop :=
  forall s, exists new,
    added m s new
    /\ Forall (fun cr => P (fst cr)) new
    /\ (forall c e, In (c, Raise e) new -> fst (m s) = Raise e)
    /\ self (snd (m s)) = self s.

Definition is_els_call (c : api_call) : Prop := exists n, c = GetElsInfo n.
Definition is_lspu_call (c : api_call) : Prop := exists n, c = GetLspuInfo n.
Definition is_detail_call (c : api_call) : Prop := is_els_call c \/ is_lspu_call c.

(** The dictionary a poll starts from. *)
Definition timestamp (s : state) : dict :=
  [(KStr ATTR_LAST_UPDATE_TIME, VDatetime (now (env s)))].

(** The state in which the [finally] clause leaves [s] when it sets the
    interval to [i], and when it fails before setting it. *)
Definition after_finally (s : state) (i : option timedelta) (w : world) : state :=
  {| self := with_interval (with_force (self s) false) i;
     calls := calls s; warnings := warnings s; env := w |}.

Definition unforced (s : state) : state :=
  {| self := with_force (self s) false;
     calls := calls s; warnings := warnings s; env := env s |}.

(** What the lookup of a device has established about the path
    [(a, i, k)] it returns: the values found along the path. *)
Inductive resolved (c : coordinator) (ids : identifiers)
    (a : value) (i k : Z) : Prop :=
| Resolved (accounts account number counters counter uuid els : value)
    (resolved_els : is_els c = Ok els)
    (resolved_accounts : get_lspu_accounts c a = Ok accounts)
    (resolved_accounts_truthy : truthy accounts = true)
    (resolved_account : getitem accounts (VInt i) = Ok account)
    (resolved_account_truthy : truthy account = true)
    (resolved_number : get_account_number c a (VInt i) = Ok number)
    (resolved_counters : get_counters c a (VInt i) = Ok counters)
    (resolved_counters_truthy : truthy counters = true)
    (resolved_counter : getitem counters (VInt k) = Ok counter)
    (resolved_uuid : Py.get counter ATTR_UUID VNone = Ok uuid)
    (resolved_uuid_item : getitem counter (VStr ATTR_UUID) = Ok uuid)
    (resolved_uuid_truthy : truthy uuid = true)
    (resolved_identifier :
       is_singleton ids (DOMAIN, make_device_id number uuid) = true).

(** The [finally] clause of a poll cannot raise. *)
Definition window_ok (c : coordinator) : Prop :=
  auto_update c = true -> (UPDATE_HOUR_BEGIN < UPDATE_HOUR_END)%Z.

(** ** Further methods and vocabulary *)

Definition get_account_alias (c : coordinator)
    (account_id lspu_account_id : value) : res value :=
  accounts <~ get_accounts c ;;
  account <~ getitem accounts account_id ;;
  els <~ is_els c ;;
  if truthy els then
    e <~ Py.get account ATTR_ELS (VDict []) ;;
    Py.get e ATTR_ALIAS VNone
  else
    a <~ getitem account lspu_account_id ;;
    Py.get a ATTR_ALIAS VNone.

(** [accounts_info.get("elsGroup")] when [accounts_info] is a mapping,
    [None] otherwise (lines 183-185). *)
Definition els_group (accounts_info : value) : value :=
  match accounts_info with
  | VDict d => dget d "elsGroup"
  | _ => VNone
  end.

Definition is_mapping (v : value) : bool :=
  match v with
  | VDict _ => true
  | _ => false
  end.

Definition is_list (v : value) : bool :=
  match v with
  | VList _ => true
  | _ => false
  end.

(** The values of [info] the balance scan looks into. *)
Definition inspected (v : value) : bool :=
  truthy v && (is_list v || is_mapping v).

(** [f] is not less than zero (a NaN is not). *)
Definition not_negative (f : float) : Prop :=
  SFltb f (S754_zero false) = false.

(** The detail fetcher of a shape. *)
Definition retrieve (sh : shape) : value -> M value :=
  match sh with
  | ELS => retrieve_els_accounts_info
  | LSPU => retrieve_lspu_accounts_info
  end.

(** The requests a poll may issue. *)
Definition is_poll_call (c : api_call) : Prop :=
  c = GetAccounts \/ is_detail_call c.

(** The path [(a, i, k)] exists in the data and its counter carries the
    identifier [e]. *)
Definition path_identifier (c : coordinator) (a : value) (i k : Z)
    (e : string * string) : Prop :=
  exists number counters counter uuid,
    get_account_number c a (VInt i) = Ok number
    /\ get_counters c a (VInt i) = Ok counters
    /\ getitem counters (VInt k) = Ok counter
    /\ Py.get counter ATTR_UUID VNone = Ok uuid
    /\ e = (DOMAIN, make_device_id number uuid).

(** The result of a poll over accounts of neither shape (lines 226-228). *)
Definition empty_result (s : state) (accounts_info : value) : dict :=
  dict_set
    (dict_set
       (dict_set (timestamp s) (KStr CONF_ACCOUNTS) accounts_info)
       (KStr CONF_INFO) (VDict []))
    (KStr ATTR_IS_ELS) (VBool false).

(** The list items the detail fetcher of a shape visits (none when it
    fails before its loop). *)
Definition items (sh : shape) (accounts_info : value) : list value :=
  match sh with
  | ELS =>
      match (g <~ Py.get accounts_info "elsGroup" VNone ;;
             Py.iter (or_ g (VList []))) with
      | Ok l => l
      | Raise _ => []
      end
  | LSPU => _get_lspu_list accounts_info
  end.

(** The path [(a, i, k)] is one the lookup of a device visits: [a] is an
    account id of the data, [i] an index into its sub-accounts and [k] an
    index into the counters of that sub-account. *)
Definition on_scan (c : coordinator) (a : value) (i k : Z) : Prop :=
  exists accounts account_ids lspu_accounts n counters m,
    get_accounts c = Ok accounts
    /\ Py.iter accounts = Ok account_ids
    /\ In a account_ids
    /\ get_lspu_accounts c a = Ok lspu_accounts
    /\ Py.len lspu_accounts = Ok n
    /\ (0 <= i < Z.of_nat n)%Z
    /\ get_counters c a (VInt i) = Ok counters
    /\ Py.len counters = Ok m
    /\ (0 <= k < Z.of_nat m)%Z.

(** The state in which [async_force_refresh] starts its refresh. *)
Definition flagged (s : state) : state :=
  {| self := with_force (self s) true; calls := calls s;
     warnings := warnings s; env := env s |}.

(** The state a refresh leaves when its poll returned [d] in [s1]. *)
Definition stored_result (s1 : state) (d : dict) : state :=
  {| self := with_data (self s1) (Some d); calls := calls s1;
     warnings := warnings s1; env := env s1 |}.

(** The account ids the resolver iterates over. *)
Definition account_ids (c : coordinator) : list value :=
  match (accounts <~ get_accounts c ;; Py.iter accounts) with
  | Ok l => l
  | Raise _ => []
  end.

End Coordinator.

(** ** Construction and bills *)

(** The configuration keys [__init__] reads: [CONF_USERNAME] and
    [CONF_PASSWORD] of the host platform, [CONF_AUTO_UPDATE] of [.const]. *)
Class Config : Type := {
  CONF_USERNAME : string;
  CONF_PASSWORD : string;
  CONF_AUTO_UPDATE : string
}.

(** What [async_get_bill] needs beyond [Host]: dates with [date.today()]
    and [strftime("%Y-%m-%d")], and the receipt request behind
    [_async_get_receipt]. *)
Class Billing {host : Host} : Type := {
  date : Type;
  today : world -> date;
  strftime : date -> string;
  receipt : string -> value -> value -> value -> world -> res value * world
}.

Section Setup.

Context {consts : Consts} {host : Host} {config : Config} {billing : Billing}.

Notation "x <- m ;; k" := (bind m (fun x => k))
  (at level 61, m at next level, right associativity) : py_scope.
Notation "m ;; k" := (bind m (fun _ => k))
  (at level 61, right associativity) : py_scope.
Notation "x <~ r ;; k" := (rbind r (fun x => k))
  (at level 61, r at next level, right associativity) : py_scope.
Local Open Scope py_scope.

(** [__init__], as far as the fields of [coordinator] go: the flag and the
    data are reset, the credentials must be present in the entry, and the
    auto-update setting is kept as the truth value the poll tests. *)
Definition __init__ (entry_data : dict) (registry : string -> option identifiers)
  : res coordinator :=
  username <~ getitem (VDict entry_data) (VStr CONF_USERNAME) ;;
  password <~ getitem (VDict entry_data) (VStr CONF_PASSWORD) ;;
  auto <~ Py.get (VDict entry_data) CONF_AUTO_UPDATE (VBool false) ;;
  Ok {| data := Some [];
        force_next_update := false;
        auto_update := truthy auto;
        update_interval := None;
        devices := registry |}.

(** The decorated [_async_get_receipt]. *)
Definition _async_get_receipt
    (date_iso_short : string) (email account_number is_els : value) : M value :=
  fun s =>
    let (r, w) := receipt date_iso_short email account_number is_els (env s) in
    (r, with_env s w).

Definition async_get_bill
    (device_id : string) (bill_date : option date) (email : value) : M value :=
  c <- get_self ;;
  bill_date <-
    (fun s => (Ok (match bill_date with
                   | Some d => d
                   | None => today (env s)
                   end), s)) ;;
  let date_iso_short := strftime bill_date in
  device <- lift (find_account_by_device_id c device_id) ;;
  let '(account_id, _, _) := device in
  match account_id with
  | Some account_id =>
      is_els <- lift (is_els c) ;;
      _async_get_receipt date_iso_short email account_id is_els
  | None => ret VNone
  end.

(** The date a bill is asked for. *)
Definition bill_day (bill_date : option date) (s : state) : string :=
  strftime (match bill_date with
            | Some d => d
            | None => today (env s)
            end).

End Setup.

(** ** A sample installation *)

Module Sample.

#[export] Instance consts : Consts := {|
  ATTR_ACCOUNT_ID := "accountId";
  ATTR_ALIAS := "alias";
  ATTR_BALANCE := "balance";
  ATTR_COUNTERS := "counters";
  ATTR_ELS := "els";
  ATTR_IS_ELS := "is_els";
  ATTR_JNT_ACCOUNT_NUM := "jntAccountNum";
  ATTR_LAST_UPDATE_TIME := "last_update_time";
  ATTR_LSPU_INFO_GROUP := "lspuInfoGroup";
  ATTR_UUID := "uuid";
  CONF_ACCOUNT := "account";
  CONF_ACCOUNTS := "accounts";
  CONF_INFO := "info";
  DOMAIN := "mygas";
  UPDATE_HOUR_BEGIN := 1;
  UPDATE_HOUR_END := 5
|}.

(** A remote service that answers each request from a fixed table, a
    clock that stands still and a generator that counts. *)
Record sample_world : Type := {
  answers : api_call -> res value;
  seed : Z
}.

Definition text (v : value) : string :=
  match v with
  | VStr s => s
  | _ => "None"
  end.

#[export] Instance host : Host := {|
  world := sample_world;
  timedelta := Z;
  remote := fun c w => (answers w c, w);
  now := fun _ => 1700000000%Z;
  random := fun w => (seed w, {| answers := answers w; seed := seed w + 7 |});
  get_update_interval := fun h m s _ => (h * 3600 + m * 60 + s)%Z;
  make_device_id := fun a u => (text a ++ "_" ++ text u)%string
|}.

Definition str_key (k : string) (v : value) : key * value := (KStr k, v).

Definition counter (uuid : string) : value :=
  VDict [str_key "uuid" (VStr uuid)].

(** The detail of one LSPU account with two counters. *)
Definition lspu_detail : value :=
  VDict [str_key "accountId" (VInt 501);
         str_key "account" (VStr "0042");
         str_key "balance" (VFloat (float_of_Z (-3)));
         str_key "counters" (VList [counter "u-1"; counter "u-2"])].

Definition els_detail : value :=
  VDict [str_key "els" (VDict [str_key "jntAccountNum" (VStr "7700")]);
         str_key "lspuInfoGroup" (VList [lspu_detail])].

Definition lspu_accounts : value :=
  VDict [str_key "lspu" (VList [VDict [str_key "id" (VInt 11)]])].

Definition els_accounts : value :=
  VDict [str_key "elsGroup"
           (VList [VDict [str_key "els" (VDict [str_key "id" (VInt 21)])]]);
         str_key "lspu" (VList [VDict [str_key "id" (VInt 11)]])].

Definition lspu_service (c : api_call) : res value :=
  match c with
  | GetAccounts => Ok lspu_accounts
  | GetLspuInfo _ => Ok lspu_detail
  | GetElsInfo _ => Ok VNone
  | IndicationSend _ _ _ _ => Ok (VList [])
  end.

Definition els_service (c : api_call) : res value :=
  match c with
  | GetAccounts => Ok els_accounts
  | GetElsInfo _ => Ok els_detail
  | GetLspuInfo _ => Ok VNone
  | IndicationSend _ _ _ _ => Ok (VList [])
  end.

Definition registry (device_id : string) : option identifiers :=
  if String.eqb device_id "dev-2" then Some [("mygas", "0042_u-2")]
  else if String.eqb device_id "dev-9" then Some [("mygas", "none")]
  else None.

(** The object as [__init__] leaves it. *)
Definition fresh (auto : bool) : coordinator :=
  {| data := Some []; force_next_update := false; auto_update := auto;
     update_interval := None; devices := registry |}.

Definition start (auto : bool) (service : api_call -> res value) : state :=
  {| self := fresh auto; calls := []; warnings := [];
     env := {| answers := service; seed := 123 |} |}.

(** A service that rejects the credentials, and one whose detail
    requests fail. *)
Definition auth_service (c : api_call) : res value :=
  Raise (Exn MyGasAuthError "Unauthorized").

Definition flaky_service (c : api_call) : res value :=
  match c with
  | GetAccounts => Ok lspu_accounts
  | _ => Raise (Exn (OtherError "MyGasApiError") "Gateway timeout")
  end.

(** The state after the first refresh. *)
Definition polled (auto : bool) (service : api_call -> res value) : state :=
  snd (async_refresh (start auto service)).

(** The same with the force flag set, as [async_force_refresh] sets it. *)
Definition forced (auto : bool) (service : api_call -> res value) : state :=
  let s := polled auto service in
  {| self := with_force (self s) true; calls := calls s;
     warnings := warnings s; env := env s |}.

Definition els_item (id : value) : value :=
  VDict [str_key "els" (VDict [str_key "id" id])].

Definition twelve_and_a_half : float := float_of_decimal false 125 (-1).

#[export] Instance config : Config := {|
  CONF_USERNAME := "username";
  CONF_PASSWORD := "password";
  CONF_AUTO_UPDATE := "auto_update"
|}.

(** Days counted from some origin, printed as their number. *)
#[export] Instance billing : Billing := {|
  date := Z;
  today := fun _ => 20000%Z;
  strftime := fun d => if (d =? 20000)%Z then "2024-10-04" else "1970-01-01";
  receipt := fun day email account els w =>
    (Ok (VDict [str_key "date" (VStr day); str_key "account" account;
                str_key "is_els" els]), w)
|}.

Definition entry_data : dict :=
  [str_key "username" (VStr "user"); str_key "password" (VStr "secret")].

(** A configuration whose hour window is empty. *)
Definition closed_window : Consts := {|
  ATTR_ACCOUNT_ID := "accountId";
  ATTR_ALIAS := "alias";
  ATTR_BALANCE := "balance";
  ATTR_COUNTERS := "counters";
  ATTR_ELS := "els";
  ATTR_IS_ELS := "is_els";
  ATTR_JNT_ACCOUNT_NUM := "jntAccountNum";
  ATTR_LAST_UPDATE_TIME := "last_update_time";
  ATTR_LSPU_INFO_GROUP := "lspuInfoGroup";
  ATTR_UUID := "uuid";
  CONF_ACCOUNT := "account";
  CONF_ACCOUNTS := "accounts";
  CONF_INFO := "info";
  DOMAIN := "mygas";
  UPDATE_HOUR_BEGIN := 5;
  UPDATE_HOUR_END := 5
|}.

(** Accounts of neither shape, and a service that answers with them. *)
Definition bare_accounts : value := VDict [str_key "clientId" (VInt 7)].

Definition bare_service (c : api_call) : res value :=
  match c with
  | GetAccounts => Ok bare_accounts
  | _ => Ok VNone
  end.

End Sample.


(** * Properties *)

Section Properties.

Context {consts : Consts} {host : Host}.

Notation "x <- m ;; k" := (bind m (fun x => k))
  (at level 61, m at next level, right associativity) : py_scope.
Notation "m ;; k" := (bind m (fun _ => k))
  (at level 61, right associativity) : py_scope.
Notation "x <~ r ;; k" := (rbind r (fun x => k))
  (at level 61, r at next level, right associativity) : py_scope.
Local Open Scope py_scope.

(** ** Response shape *)

(** C4, as amended.  [_get_lspu_list] yields the list found under the
    first of the keys [lspu], [lspuGroup], [lspuInfoGroup] whose value is
    truthy; a value that is not a list counts as the empty list, and so
    does every input that is not a mapping. *)
Theorem get_lspu_list_first_truthy (accounts_info : value) :
  _get_lspu_list accounts_info = lspu_list_by truthy accounts_info
  /\ match accounts_info with
     | VDict _ => True
     | _ => _get_lspu_list accounts_info = []
     end.
Proof.
  split.
  - destruct accounts_info as [| | | | | |d|]; try reflexivity.
    unfold _get_lspu_list, lspu_list_by, first_where, or_; simpl.
    destruct (truthy (dget d "lspu")) eqn:E1; simpl; rewrite ?E1; auto.
    destruct (truthy (dget d "lspuGroup")) eqn:E2; simpl; rewrite ?E2; auto.
    destruct (truthy (dget d "lspuInfoGroup")) eqn:E3; simpl; rewrite ?E3; auto.
  - destruct accounts_info; auto.
Qed.

(** ** Balance extraction *)

Lemma float_raises (v : value) (e : exn) :
  float_ v = Raise e ->
  exn_cls e = TypeError \/ exn_cls e = ValueError \/ exn_cls e = OverflowError.
Proof.
  destruct v as [| b | z | f | s | l | d | t]; simpl;
    try (intros [= <-]; simpl; tauto).
  - destruct (float_of_Z z); intros [= <-]; simpl; tauto.
  - destruct (float_of_string s); intros [= <-]; simpl; tauto.
Qed.

Lemma balance_in_float (item : dict) (r : res float) :
  balance_in item = Some r ->
  exists v, is_none v = false /\ r = float_ v.
Proof.
  unfold balance_in.
  set (own := dget item "balance").
  assert (Hown : (if negb (is_none own) then Some (float_ own) else None) = Some r ->
                 exists v, is_none v = false /\ r = float_ v).
  { destruct (is_none own) eqn:E; simpl; intros [= <-]. eauto. }
  destruct (dget item "services") as [| | | | | [| s0 ss] | |]; auto.
  destruct s0 as [| | | | | | s0 |]; auto.
  destruct (is_none (dget s0 "balance")) eqn:E; simpl; auto.
  intros [= <-]. eauto.
Qed.

Lemma scan_list_float (items : list value) (r : res float) :
  scan_list items = Some r ->
  exists v, is_none v = false /\ r = float_ v.
Proof.
  induction items as [| item rest IH]; simpl; [discriminate |].
  destruct item as [| | | | | | d |]; auto.
  destruct (balance_in d) eqn:E; auto.
  intros [= <-]. eapply balance_in_float; eauto.
Qed.

Lemma scan_values_float (values : list value) (r : res float) :
  scan_values values = Some r ->
  exists v, is_none v = false /\ r = float_ v.
Proof.
  induction values as [| items rest IH]; simpl; [discriminate |].
  destruct (truthy items); simpl; auto.
  destruct items as [| | | | | l | d |]; auto.
  - destruct (scan_list l) eqn:E; auto.
    intros [= <-]. eapply scan_list_float; eauto.
  - destruct (balance_in d) eqn:E; auto.
    intros [= <-]. eapply balance_in_float; eauto.
Qed.

(** X1.  The only exception [_extract_balance_from_info] lets through is
    the [OverflowError] of [float(...)] on an integer beyond the float
    range. *)
Lemma extract_balance_escapes_only_overflow (info : value) (e : exn) :
  _extract_balance_from_info info = Raise e ->
  exn_cls e = OverflowError
  /\ exists z, float_ (VInt z) = Raise e.
Proof.
  destruct info as [| | | | | | d |]; simpl; try discriminate.
  destruct (scan_values (map snd d)) as [[f | e'] |] eqn:E; try discriminate.
  destruct (scan_values_float _ _ E) as (v & _ & Hv).
  destruct (float_raises v e' (eq_sym Hv)) as [H | [H | H]]; rewrite H;
    try discriminate.
  intros [= <-]. split; [assumption |].
  destruct v as [| b | z | f | s | l | d' | t]; simpl in Hv;
    try discriminate Hv;
    try (injection Hv as ->; discriminate H).
  - exists z. auto.
  - destruct (float_of_string s); [discriminate Hv |].
    injection Hv as ->; discriminate H.
Qed.

(** Non-mapping input and an empty mapping yield [None]. *)
Lemma extract_balance_no_mapping (info : value) :
  match info with
  | VDict (_ :: _) => True
  | _ => _extract_balance_from_info info = Ok None
  end.
Proof. destruct info as [| | | | | | [| kv d] |]; reflexivity || exact I. Qed.

(** Within one element, [services[0].balance] is preferred to the
    element's own [balance]. *)
Lemma balance_in_prefers_services (item s0 : dict) (rest : list value) (b : value) :
  dget item "services" = VList (VDict s0 :: rest) ->
  dget s0 "balance" = b -> is_none b = false ->
  balance_in item = Some (float_ b).
Proof.
  intros Hs Hb Hn. unfold balance_in. rewrite Hs, Hb, Hn. reflexivity.
Qed.

(** The scan of a list returns at its first balance-bearing element. *)
Lemma scan_list_first (before after : list value) (item : dict) (r : res float) :
  scan_list before = None ->
  balance_in item = Some r ->
  scan_list (before ++ VDict item :: after) = Some r.
Proof.
  intros Hb Hi. induction before as [| x before IH]; simpl in *.
  - rewrite Hi. reflexivity.
  - destruct x as [| | | | | | d |]; auto.
    destruct (balance_in d); [discriminate | auto].
Qed.

(** A balance that [float(...)] rejects with [TypeError] or [ValueError]
    ends the call with [None]: later elements are not looked at. *)
Lemma extract_balance_hard_stop (d : dict) (e : exn) :
  scan_values (map snd d) = Some (Raise e) ->
  exn_cls e = TypeError \/ exn_cls e = ValueError ->
  _extract_balance_from_info (VDict d) = Ok None.
Proof.
  intros Hs Hc. simpl. rewrite Hs. destruct Hc as [-> | ->]; reflexivity.
Qed.

(** ** Detail fetchers *)

Lemma dict_set_has_key (d : dict) (k k' : key) (v : value) :
  has_key d k = true -> has_key (dict_set d k' v) k = true.
Proof.
  unfold has_key. induction d as [| [k0 v0] d IH]; simpl; [discriminate |].
  destruct (key_eqb k0 k') eqn:E'; simpl; destruct (key_eqb k0 k); auto.
Qed.

Lemma step_keeps_keys (sh : shape) (acc info : dict) (item : value) (s s' : state) :
  step sh acc item s = (Ok info, s') ->
  forall k, has_key acc k = true -> has_key info k = true.
Proof.
  destruct sh; simpl; unfold els_step, lspu_step, bind, lift, ret, warning,
    _async_get_els_info, _async_get_lspu_info, request.
  - destruct (Py.get item "els" (VDict [])) as [e |]; [| discriminate].
    destruct (Py.get e "id" VNone) as [i |]; [| discriminate].
    destruct (truthy i); simpl.
    + destruct (int_ i) as [n |]; [| discriminate].
      destruct (remote (GetElsInfo n) (env s)) as [[v |] w]; [| discriminate].
      destruct (truthy v); intros [= <- <-] k Hk;
        auto using dict_set_has_key.
    + intros [= <- <-] k Hk. assumption.
  - destruct (Py.get item "id" VNone) as [i |]; [| discriminate].
    destruct (truthy i); simpl.
    + destruct (int_ i) as [n |]; [| discriminate].
      destruct (remote (GetLspuInfo n) (env s)) as [[v |] w]; [| discriminate].
      destruct (truthy v); [destruct v |]; intros [= <- <-] k Hk;
        auto using dict_set_has_key.
    + intros [= <- <-] k Hk. assumption.
Qed.

(** Entries already gathered survive the rest of the batch. *)
Lemma for_each_keeps_keys (sh : shape) (rest : list value) :
  forall (acc info : dict) (s s' : state),
    for_each rest (step sh) acc s = (Ok info, s') ->
    forall k, has_key acc k = true -> has_key info k = true.
Proof.
  induction rest as [| item rest IH]; simpl; intros acc info s s' H k Hk.
  - injection H as <- <-. assumption.
  - unfold bind in H.
    destruct (step sh acc item s) as [[acc' | e] s1] eqn:E; [| discriminate].
    eapply IH; eauto. eapply step_keeps_keys; eauto.
Qed.

(** C7, as amended.  In both detail fetchers, a list item whose account id
    is absent or falsy is skipped with a warning and the loop goes on with
    the remaining items; so is an item whose detail request answers with
    a falsy result; a truthy answer is stored under the integer id (in the
    LSPU fetcher wrapped into a one-element list unless it is a list); an
    id that is truthy but not convertible to an integer is not skipped:
    the conversion error leaves the fetcher.  Entries gathered so far are
    still present in the result of the batch. *)
Theorem fetchers_skip_and_continue
    (sh : shape) (item i : value) (rest : list value) (acc : dict) (s : state) :
  (item_id sh item = Ok i ->
     (truthy i = false ->
        for_each (item :: rest) (step sh) acc s
        = for_each rest (step sh) acc (add_warning (warn_id sh) s))
     /\ (forall n v w,
           truthy i = true -> int_ i = Ok n ->
           remote (detail_call sh n) (env s) = (Ok v, w) ->
           for_each (item :: rest) (step sh) acc s
           = if truthy v
             then for_each rest (step sh)
                    (dict_set acc (KInt n) (stored sh v))
                    (add_call (detail_call sh n) (Ok v) w s)
             else for_each rest (step sh) acc
                    (add_warning (warn_info sh)
                       (add_call (detail_call sh n) (Ok v) w s)))
     /\ (forall e,
           truthy i = true -> int_ i = Raise e ->
           for_each (item :: rest) (step sh) acc s = (Raise e, s)))
  /\ (forall info s',
        for_each rest (step sh) acc s = (Ok info, s') ->
        forall k, has_key acc k = true -> has_key info k = true)
  /\ (forall d l,
        dget d "elsGroup" = VList l ->
        retrieve_els_accounts_info (VDict d) s
        = (info <- for_each l (step ELS) [] ;; ret (VDict info)) s)
  /\ (forall accounts_info,
        retrieve_lspu_accounts_info accounts_info s
        = (info <- for_each (_get_lspu_list accounts_info) (step LSPU) [] ;;
           ret (VDict info)) s).
Proof.
  split; [| split; [| split]].
  - intros Hid.
    assert (Hstep : forall k : dict -> M dict,
               bind (step sh acc item) k s
               = bind (i' <- lift (Ok i) ;;
                       if negb (truthy i') then
                         warning (warn_id sh) ;; ret acc
                       else
                         n <- lift (int_ i') ;;
                         v <- request (detail_call sh n) ;;
                         if truthy v then
                           ret (dict_set acc (KInt n) (stored sh v))
                         else warning (warn_info sh) ;; ret acc) k s).
    { intros k. destruct sh; simpl in *;
        unfold els_step, lspu_step, bind, lift in *.
      - destruct (Py.get item "els" (VDict [])) as [e |]; [| discriminate].
        simpl in Hid. rewrite Hid. reflexivity.
      - rewrite Hid.
        destruct (truthy i); simpl; [| reflexivity].
        destruct (int_ i) as [n |]; [| reflexivity].
        unfold _async_get_lspu_info.
        destruct (request (GetLspuInfo n) s) as [[v |] s1]; [| reflexivity].
        destruct (truthy v); [| reflexivity]. destruct v; reflexivity. }
    simpl. repeat split.
    + intros Hi. rewrite Hstep. unfold bind, lift, warning, ret.
      rewrite Hi. reflexivity.
    + intros n v w Hi Hn Hr. rewrite Hstep.
      unfold bind, lift, warning, ret, request.
      rewrite Hi, Hn. simpl. rewrite Hr.
      destruct (truthy v); reflexivity.
    + intros e Hi Hn. rewrite Hstep. unfold bind, lift.
      rewrite Hi, Hn. reflexivity.
  - intros info s'. apply for_each_keeps_keys.
  - intros d l Hl. unfold retrieve_els_accounts_info, bind, lift. simpl.
    unfold dget in Hl.
    destruct (dict_get d (KStr "elsGroup")) as [g |]; [| discriminate].
    subst g. unfold or_. simpl. destruct l; reflexivity.
  - reflexivity.
Qed.

(** ** Requests issued by a method *)

Section Traced.

Variable P : api_call -> Prop.

Lemma traced_ret {A} (a : A) : traced P (ret a).
Proof. intros s. exists []. cbv [added ret]; simpl. intuition. Qed.

Lemma traced_lift {A} (r : res A) : traced P (lift r).
Proof. intros s. exists []. cbv [added lift]; simpl. intuition. Qed.

Lemma traced_raise {A} (e : exn) : traced P (raise e : M A).
Proof. intros s. exists []. cbv [added raise]; simpl. intuition. Qed.

Lemma traced_warning (msg : string) : traced P (warning msg).
Proof. intros s. exists []. cbv [added warning]; simpl. intuition. Qed.

Lemma traced_get_self : traced P get_self.
Proof. intros s. exists []. cbv [added get_self]; simpl. intuition. Qed.

Lemma traced_request (c : api_call) : P c -> traced P (request c).
Proof.
  intros Hc s. unfold request, added.
  destruct (remote c (env s)) as [r w] eqn:E.
  exists [(c, r)]. simpl. repeat split; auto.
  intros c' e [[= <- <-] | []]. reflexivity.
Qed.

Lemma traced_bind {A B} (m : M A) (k : A -> M B) :
  traced P m -> (forall a, traced P (k a)) -> traced P (bind m k).
Proof.
  intros Hm Hk s. destruct (Hm s) as (new1 & H1 & F1 & R1 & S1).
  unfold added, bind in *.
  destruct (m s) as [[a | e] s1]; simpl in *.
  - destruct (Hk a s1) as (new2 & H2 & F2 & R2 & S2). unfold added in H2.
    exists (new2 ++ new1). rewrite H2, H1, app_assoc.
    repeat split; auto.
    + apply Forall_app; auto.
    + intros c e Hin. apply in_app_or in Hin as [Hin | Hin]; eauto.
      specialize (R1 _ _ Hin). discriminate.
    + congruence.
  - exists new1. repeat split; auto.
    intros c e0 Hin. specialize (R1 _ _ Hin). injection R1 as ->.
    reflexivity.
Qed.

Lemma traced_for_each {A B} (body : B -> A -> M B) (l : list A) :
  (forall acc x, traced P (body acc x)) ->
  forall acc, traced P (for_each l body acc).
Proof.
  intros Hb. induction l as [| x l IH]; intros acc; simpl.
  - apply traced_ret.
  - apply traced_bind; auto.
Qed.

Lemma traced_assert (b : bool) : traced P (assert_ b).
Proof. destruct b; [apply traced_ret | apply traced_raise]. Qed.

End Traced.

Lemma traced_weaken {A} (P Q : api_call -> Prop) (m : M A) :
  (forall c, P c -> Q c) -> traced P m -> traced Q m.
Proof.
  intros HPQ Hm s. destruct (Hm s) as (new & H1 & F & R & S).
  exists new. repeat split; auto.
  eapply Forall_impl; [| exact F]. auto.
Qed.

Create HintDb traced.
#[local] Hint Resolve traced_ret traced_lift traced_raise traced_warning
  traced_get_self traced_assert : traced.

(** Breaks a method into its statements. *)
Ltac traced_steps :=
  repeat first
    [ apply traced_bind; [| intros ?]
    | apply traced_for_each; intros ? ?
    | solve [auto with traced]
    | match goal with
      | |- traced _ (if ?b then _ else _) => destruct b
      | |- traced _ (match ?x with _ => _ end) => destruct x
      end ].

Lemma traced_els_step (acc : dict) (item : value) :
  traced is_els_call (els_step acc item).
Proof.
  unfold els_step, _async_get_els_info. traced_steps.
  apply traced_request. eexists; reflexivity.
Qed.

Lemma traced_lspu_step (acc : dict) (item : value) :
  traced is_lspu_call (lspu_step acc item).
Proof.
  unfold lspu_step, _async_get_lspu_info. traced_steps.
  apply traced_request. eexists; reflexivity.
Qed.

Lemma traced_retrieve_els (accounts_info : value) :
  traced is_els_call (retrieve_els_accounts_info accounts_info).
Proof.
  unfold retrieve_els_accounts_info.
  do 2 (apply traced_bind; [auto with traced | intros ?]).
  apply traced_bind; [| auto with traced].
  apply traced_for_each. apply traced_els_step.
Qed.

Lemma traced_retrieve_lspu (accounts_info : value) :
  traced is_lspu_call (retrieve_lspu_accounts_info accounts_info).
Proof.
  unfold retrieve_lspu_accounts_info.
  apply traced_bind; [| auto with traced].
  apply traced_for_each. apply traced_lspu_step.
Qed.

Lemma traced_store_balance (P : api_call -> Prop) (new_data : dict) :
  traced P (store_balance new_data).
Proof. unfold store_balance. traced_steps. Qed.

Lemma traced_fill_info (new_data : dict) (accounts_info : value) :
  traced is_detail_call (fill_info new_data accounts_info).
Proof.
  unfold fill_info.
  destruct (truthy _); [| destruct (truthy _)].
  - apply traced_bind; [| intros ?; apply traced_store_balance].
    eapply traced_weaken; [| apply traced_retrieve_els].
    intros c Hc; left; exact Hc.
  - apply traced_bind; [| intros ?; apply traced_store_balance].
    eapply traced_weaken; [| apply traced_retrieve_lspu].
    intros c Hc; right; exact Hc.
  - traced_steps.
Qed.

Lemma traced_update_try (new_data : dict) :
  traced (fun _ => True) (update_try new_data).
Proof.
  unfold update_try, _async_get_accounts.
  apply traced_bind; [auto with traced | intros c].
  destruct (_ || _).
  - apply traced_bind; [apply traced_request; exact I | intros a].
    destruct (truthy a); [| traced_steps].
    eapply traced_weaken; [| apply traced_fill_info]. auto.
  - eapply traced_weaken; [| apply traced_fill_info]. auto.
Qed.

(** ** The poll *)

Lemma update_except_raises (exc : exn) (s : state) :
  update_except exc s = (Raise (poll_failure exc), s).
Proof.
  unfold update_except, poll_failure. destruct (exn_cls exc); reflexivity.
Qed.

(** The three ways the [finally] clause can end. *)
Lemma update_finally_cases (s : state) :
  (auto_update (self s) = false
   /\ update_finally s = (Ok tt, after_finally s None (env s)))
  \/ (auto_update (self s) = true
      /\ (UPDATE_HOUR_BEGIN < UPDATE_HOUR_END)%Z
      /\ exists h m sec w,
           (UPDATE_HOUR_BEGIN <= h < UPDATE_HOUR_END)%Z
           /\ (0 <= m < 60)%Z /\ (0 <= sec < 60)%Z
           /\ update_finally s
              = (Ok tt, after_finally s (Some (get_update_interval h m sec w)) w))
  \/ (auto_update (self s) = true
      /\ (UPDATE_HOUR_END <= UPDATE_HOUR_BEGIN)%Z
      /\ update_finally s
         = (Raise (Exn ValueError "empty range for randrange()"),
            unforced s)).
Proof.
  unfold update_finally, bind, get_self, set_self, randrange. simpl.
  destruct (auto_update (self s)) eqn:Ha; [| left; auto].
  right. destruct (Z.ltb_spec UPDATE_HOUR_BEGIN UPDATE_HOUR_END) as [Hlt | Hge].
  - left. split; [reflexivity | split; [assumption |]]. simpl.
    destruct (random (env s)) as [r1 w1]. simpl.
    destruct (random w1) as [r2 w2]. simpl.
    destruct (random w2) as [r3 w3]. simpl.
    exists (UPDATE_HOUR_BEGIN + r1 mod (UPDATE_HOUR_END - UPDATE_HOUR_BEGIN))%Z,
      (0 + r2 mod (60 - 0))%Z, (0 + r3 mod (60 - 0))%Z, w3.
    pose proof (Z.mod_pos_bound r1 (UPDATE_HOUR_END - UPDATE_HOUR_BEGIN)).
    pose proof (Z.mod_pos_bound r2 (60 - 0)).
    pose proof (Z.mod_pos_bound r3 (60 - 0)).
    repeat split; try lia.
  - right. split; [reflexivity | split; [assumption |]]. reflexivity.
Qed.

Lemma update_finally_state (s : state) :
  force_next_update (self (snd (update_finally s))) = false
  /\ calls (snd (update_finally s)) = calls s
  /\ auto_update (self (snd (update_finally s))) = auto_update (self s).
Proof.
  destruct (update_finally_cases s)
    as [(Ha & ->) | [(Ha & _ & h & m & sec & w & _ & _ & _ & ->)
                    | (Ha & Hw & ->)]]; simpl; auto.
Qed.

Lemma update_finally_ok (s : state) :
  window_ok (self s) -> fst (update_finally s) = Ok tt.
Proof.
  intros Hw. destruct (update_finally_cases s)
    as [(Ha & ->) | [(Ha & _ & h & m & sec & w & _ & _ & _ & ->)
                    | (Ha & Hge & _)]]; auto.
  specialize (Hw Ha). lia.
Qed.

(** A poll is its [try] body, the mapping of a raised exception, and
    the [finally] clause. *)
Lemma poll_run (s : state) :
  exists r0 s1 r2 s2,
    update_try (timestamp s) s = (r0, s1)
    /\ update_finally s1 = (r2, s2)
    /\ _async_update_data s
       = (match r2 with
          | Ok _ =>
              match r0 with
              | Ok d => Ok d
              | Raise exc => Raise (poll_failure exc)
              end
          | Raise e => Raise e
          end, s2).
Proof.
  unfold _async_update_data, bind, dt_now, finally, try_except. simpl.
  fold (timestamp s).
  destruct (update_try (timestamp s) s) as [[d | exc] s1].
  - destruct (update_finally s1) as [[[] | e] s2] eqn:F;
      eexists _, _, _, _; repeat split; eauto.
  - rewrite update_except_raises.
    destruct (update_finally s1) as [[[] | e] s2] eqn:F;
      eexists _, _, _, _; repeat split; eauto.
Qed.

Lemma update_try_self (new_data : dict) (s : state) :
  self (snd (update_try new_data s)) = self s.
Proof. destruct (traced_update_try new_data s) as (new & _ & _ & _ & H). exact H. Qed.

(** C6.  After a poll the force flag is false, whatever the outcome; and
    a poll that runs with the flag set starts with a fresh request for
    the accounts. *)
Theorem force_flag_one_shot (s : state) :
  force_next_update (self (snd (_async_update_data s))) = false
  /\ (force_next_update (self s) = true ->
      exists r new,
        added _async_update_data s (new ++ [(GetAccounts, r)])
        /\ fst (remote GetAccounts (env s)) = r
        /\ Forall (fun cr => is_detail_call (fst cr)) new).
Proof.
  destruct (poll_run s) as (r0 & s1 & r2 & s2 & Ht & Hf & Hp).
  pose proof (update_finally_state s1) as (Hforce & Hcalls & _).
  rewrite Hf in Hforce, Hcalls. simpl in Hforce, Hcalls.
  split.
  - rewrite Hp. exact Hforce.
  - intros Hset. unfold added. rewrite Hp. simpl. rewrite Hcalls.
    revert Ht. unfold update_try, bind at 1, get_self. simpl.
    rewrite Hset, orb_true_r. unfold _async_get_accounts, bind, request.
    destruct (remote GetAccounts (env s)) as [[a | e] w]; simpl.
    + destruct (truthy a).
      * intros Hfill.
        destruct (traced_fill_info (timestamp s) a
                    (add_call GetAccounts (Ok a) w s)) as (new & Hn & F & _).
        unfold added in Hn. rewrite Hfill in Hn. simpl in Hn.
        exists (Ok a), new. rewrite Hn, <- app_assoc. auto.
      * unfold warning, ret. intros [= <- <-]. exists (Ok a), []. auto.
    + intros [= <- <-]. exists (Raise e), []. auto.
Qed.


(** C2.  When the [finally] clause cannot fail: whatever exception the
    [try] body of a poll raises, the poll fails with its image under
    [poll_failure]; and an exception raised by any request of the poll,
    at whatever stage, makes the poll fail with [ConfigEntryAuthFailed]
    when it is a [MyGasAuthError] and with [UpdateFailed], carrying the
    text of the exception, otherwise. *)
Theorem poll_failure_mapping (s : state) :
  window_ok (self s) ->
  (forall exc,
     fst (update_try (timestamp s) s) = Raise exc ->
     fst (_async_update_data s) = Raise (poll_failure exc))
  /\ (forall new c e,
        added _async_update_data s new -> In (c, Raise e) new ->
        (exn_cls e = MyGasAuthError ->
         fst (_async_update_data s)
         = Raise (Exn ConfigEntryAuthFailed "Incorrect Login or Password"))
        /\ (exn_cls e <> MyGasAuthError ->
            fst (_async_update_data s)
            = Raise (Exn UpdateFailed
                       ("Error communicating with API: " ++ exn_msg e)))).
Proof.
  intros Hw.
  destruct (poll_run s) as (r0 & s1 & r2 & s2 & Ht & Hf & Hp).
  assert (Hs : self s1 = self s).
  { rewrite <- (update_try_self (timestamp s) s), Ht. reflexivity. }
  assert (Hok : r2 = Ok tt).
  { rewrite <- Hs in Hw. apply update_finally_ok in Hw.
    rewrite Hf in Hw. exact Hw. }
  subst r2.
  assert (Hmap : forall exc, fst (update_try (timestamp s) s) = Raise exc ->
                   fst (_async_update_data s) = Raise (poll_failure exc)).
  { intros exc. rewrite Ht, Hp. simpl. intros ->. reflexivity. }
  split; [exact Hmap |].
  intros new c e Hadd Hin.
  assert (Hraise : fst (_async_update_data s) = Raise (poll_failure e)).
  { apply Hmap.
    destruct (traced_update_try (timestamp s) s) as (new' & Hn & _ & R & _).
    apply (R c). unfold added in Hadd, Hn.
    rewrite Hp in Hadd. simpl in Hadd.
    pose proof (update_finally_state s1) as (_ & Hc & _).
    rewrite Hf in Hc. simpl in Hc. rewrite Hc in Hadd.
    rewrite Ht in Hn. simpl in Hn.
    rewrite Hn in Hadd. apply app_inv_tail in Hadd. subst new'. exact Hin. }
  rewrite Hraise. unfold poll_failure. split.
  - intros ->. reflexivity.
  - intros Hne. destruct (exn_cls e); try reflexivity. contradiction.
Qed.

(** ** The accounts cache *)

Lemma key_eqb_refl (k : key) : key_eqb k k = true.
Proof. destruct k; simpl; [apply Z.eqb_refl | apply String.eqb_refl]. Qed.

Lemma key_eqb_eq (k1 k2 : key) : key_eqb k1 k2 = true -> k1 = k2.
Proof.
  destruct k1, k2; simpl; try discriminate.
  - intros H. apply Z.eqb_eq in H. congruence.
  - intros H. apply String.eqb_eq in H. congruence.
Qed.

Lemma dict_get_set_same (d : dict) (k : key) (v : value) :
  dict_get (dict_set d k v) k = Some v.
Proof.
  induction d as [| [k0 v0] d IH]; simpl.
  - rewrite key_eqb_refl. reflexivity.
  - destruct (key_eqb k0 k) eqn:E; simpl; rewrite E; auto.
Qed.

Lemma dict_get_set_other (d : dict) (k k' : key) (v : value) :
  key_eqb k' k = false -> dict_get (dict_set d k' v) k = dict_get d k.
Proof.
  intros Hne. induction d as [| [k0 v0] d IH]; simpl.
  - rewrite Hne. reflexivity.
  - destruct (key_eqb k0 k') eqn:E; simpl.
    + apply key_eqb_eq in E. subst k0. rewrite Hne. reflexivity.
    + rewrite IH. reflexivity.
Qed.

Lemma keys_distinct_spec :
  keys_distinct = true ->
  key_eqb (KStr ATTR_IS_ELS) (KStr CONF_ACCOUNTS) = false
  /\ key_eqb (KStr CONF_INFO) (KStr CONF_ACCOUNTS) = false
  /\ key_eqb (KStr ATTR_BALANCE) (KStr CONF_ACCOUNTS) = false
  /\ key_eqb (KStr CONF_INFO) (KStr ATTR_IS_ELS) = false
  /\ key_eqb (KStr ATTR_BALANCE) (KStr ATTR_IS_ELS) = false
  /\ key_eqb (KStr ATTR_BALANCE) (KStr CONF_INFO) = false.
Proof.
  unfold keys_distinct. simpl.
  rewrite !andb_true_iff, !negb_true_iff.
  intros (((((H1 & H2) & H3) & H4) & H5) & H6).
  rewrite (String.eqb_sym ATTR_IS_ELS), (String.eqb_sym CONF_INFO CONF_ACCOUNTS),
    (String.eqb_sym ATTR_BALANCE CONF_ACCOUNTS),
    (String.eqb_sym CONF_INFO ATTR_IS_ELS),
    (String.eqb_sym ATTR_BALANCE ATTR_IS_ELS),
    (String.eqb_sym ATTR_BALANCE CONF_INFO).
  auto 10.
Qed.

Lemma store_balance_cases (new_data : dict) (s : state) :
  (exists e, store_balance new_data s = (Raise e, s))
  \/ store_balance new_data s = (Ok new_data, s)
  \/ exists b,
       store_balance new_data s
       = (Ok (dict_set new_data (KStr ATTR_BALANCE) (VFloat b)), s).
Proof.
  unfold store_balance, bind, lift, ret.
  destruct (_extract_balance_from_info _) as [[b |] | e]; eauto.
Qed.

(** The two lookups that matter in the result of [store_balance]. *)
Lemma store_balance_keeps (new_data d : dict) (s s' : state) (k : string) :
  store_balance new_data s = (Ok d, s') ->
  key_eqb (KStr ATTR_BALANCE) (KStr k) = false ->
  dict_get d (KStr k) = dict_get new_data (KStr k).
Proof.
  intros H Hk.
  destruct (store_balance_cases new_data s) as [[e He] | [He | [b He]]];
    rewrite He in H; try discriminate; injection H as <- <-; auto.
  apply dict_get_set_other. exact Hk.
Qed.

(** What [fill_info] leaves under [CONF_ACCOUNTS]. *)
Lemma fill_info_accounts (new_data d : dict) (a : value) (s s' : state) :
  keys_distinct = true ->
  fill_info new_data a s = (Ok d, s') ->
  dict_get d (KStr CONF_ACCOUNTS) = Some a.
Proof.
  intros Hk. destruct (keys_distinct_spec Hk) as (K1 & K2 & K3 & _).
  unfold fill_info.
  destruct (truthy _); [| destruct (truthy _)]; unfold bind.
  - destruct (retrieve_els_accounts_info a s) as [[info |] s1]; [| discriminate].
    intros H. rewrite (store_balance_keeps _ _ _ _ _ H K3).
    rewrite !dict_get_set_other by assumption. apply dict_get_set_same.
  - destruct (retrieve_lspu_accounts_info a s) as [[info |] s1]; [| discriminate].
    intros H. rewrite (store_balance_keeps _ _ _ _ _ H K3).
    rewrite !dict_get_set_other by assumption. apply dict_get_set_same.
  - unfold warning, ret. intros [= <- <-].
    rewrite !dict_get_set_other by assumption. apply dict_get_set_same.
Qed.

(** How the [try] body settles the accounts it works on. *)
Lemma update_try_cases (new_data : dict) (s : state) :
  (is_none (cached_accounts (self s)) || force_next_update (self s) = false
   /\ update_try new_data s = fill_info new_data (cached_accounts (self s)) s)
  \/ (is_none (cached_accounts (self s)) || force_next_update (self s) = true
      /\ exists r w,
           remote GetAccounts (env s) = (r, w)
           /\ update_try new_data s
              = match r with
                | Ok a =>
                    if truthy a
                    then fill_info new_data a (add_call GetAccounts r w s)
                    else (Ok new_data,
                          add_warning warn_no_accounts
                            (add_call GetAccounts r w s))
                | Raise e => (Raise e, add_call GetAccounts r w s)
                end).
Proof.
  assert (E : update_try new_data s
              = (if is_none (cached_accounts (self s))
                    || force_next_update (self s)
                 then
                   accounts_info <- _async_get_accounts ;;
                   if truthy accounts_info
                   then fill_info new_data accounts_info
                   else warning warn_no_accounts ;; ret new_data
                 else fill_info new_data (cached_accounts (self s))) s)
    by reflexivity.
  rewrite E. clear E.
  destruct (_ || _); [right | left; auto].
  split; [reflexivity |].
  unfold _async_get_accounts, bind, request.
  destruct (remote GetAccounts (env s)) as [[a | e] w]; eexists _, _;
    (split; [reflexivity |]); [| reflexivity].
  cbv beta iota. destruct (truthy a); reflexivity.
Qed.

Lemma update_finally_data (s : state) :
  data (self (snd (update_finally s))) = data (self s).
Proof.
  destruct (update_finally_cases s)
    as [(Ha & ->) | [(Ha & _ & h & m & sec & w & _ & _ & _ & ->)
                    | (Ha & Hw & ->)]]; reflexivity.
Qed.

(** C1.  In a state whose cached accounts are absent or truthy: a poll
    with truthy cached accounts and the force flag off issues no request
    for the accounts and works on the cached ones; a poll with empty or
    absent cached accounts, or with the force flag on, first requests
    the accounts; and when that request answers with a falsy value, the
    poll issues no further request and succeeds with the dictionary that
    holds the timestamp only. *)
Theorem accounts_cache_policy (s : state) :
  cache_ok (self s) ->
  keys_distinct = true ->
  window_ok (self s) ->
  (truthy (cached_accounts (self s)) = true ->
   force_next_update (self s) = false ->
   (exists new,
      added _async_update_data s new
      /\ Forall (fun cr => is_detail_call (fst cr)) new)
   /\ (forall new_data,
         fst (_async_update_data s) = Ok new_data ->
         dict_get new_data (KStr CONF_ACCOUNTS)
         = Some (cached_accounts (self s))))
  /\ (truthy (cached_accounts (self s)) = false
      \/ force_next_update (self s) = true ->
      exists r w new,
        remote GetAccounts (env s) = (r, w)
        /\ added _async_update_data s (new ++ [(GetAccounts, r)])
        /\ Forall (fun cr => is_detail_call (fst cr)) new
        /\ (forall a,
              r = Ok a -> truthy a = false ->
              new = [] /\ fst (_async_update_data s) = Ok (timestamp s))).
Proof.
  intros Hcache Hkeys Hw.
  destruct (poll_run s) as (r0 & s1 & r2 & s2 & Ht & Hf & Hp).
  pose proof (update_finally_state s1) as (_ & Hcalls & _).
  rewrite Hf in Hcalls. simpl in Hcalls.
  assert (Hok : r2 = Ok tt).
  { assert (Hs : self s1 = self s).
    { rewrite <- (update_try_self (timestamp s) s), Ht. reflexivity. }
    rewrite <- Hs in Hw. apply update_finally_ok in Hw.
    rewrite Hf in Hw. exact Hw. }
  subst r2. unfold added. rewrite Hp. simpl. rewrite Hcalls.
  destruct (update_try_cases (timestamp s) s)
    as [(Hc & Hu) | (Hc & r & w & Hr & Hu)]; rewrite Hu in Ht.
  - apply orb_false_iff in Hc as (Hnone & Hforce). split.
    + intros _ _. split.
      * destruct (traced_fill_info (timestamp s) (cached_accounts (self s)) s)
          as (new & Hn & F & _).
        unfold added in Hn. rewrite Ht in Hn. simpl in Hn. eauto.
      * intros nd. destruct r0 as [d |]; [| discriminate].
        intros [= <-]. eapply fill_info_accounts; eauto.
    + intros [Hfalsy | Hset]; [| congruence].
      unfold cache_ok in Hcache. rewrite Hnone, Hfalsy in Hcache.
      discriminate.
  - split.
    + intros Htruthy Hforce. rewrite Hforce, orb_false_r in Hc.
      destruct (cached_accounts (self s)); discriminate.
    + intros _. exists r, w. destruct r as [a | e].
      * destruct (truthy a) eqn:Ea.
        -- destruct (traced_fill_info (timestamp s) a
                       (add_call GetAccounts (Ok a) w s)) as (new & Hn & F & _).
           unfold added in Hn. rewrite Ht in Hn. simpl in Hn.
           exists new. rewrite Hn, <- app_assoc.
           split; [assumption |]. split; [reflexivity |].
           split; [assumption |].
           intros a' [= <-] Hfalse. congruence.
        -- injection Ht as <- <-. exists []. simpl.
           split; [assumption |]. split; [reflexivity |].
           split; [constructor |]. auto.
      * injection Ht as <- <-. exists []. simpl.
        split; [assumption |]. split; [reflexivity |].
        split; [constructor |]. intros a' Ha'. discriminate.
Qed.

(** The hypothesis of C1 holds when the object is created and is kept by
    every refresh. *)
Lemma cache_ok_created (c : coordinator) : data c = Some [] -> cache_ok c.
Proof. unfold cache_ok, cached_accounts. intros ->. reflexivity. Qed.

(** X19.  Every refresh keeps the cached accounts absent or truthy: a
    poll never leaves an empty accounts payload behind. *)
Lemma cache_ok_refresh (s : state) :
  keys_distinct = true ->
  cache_ok (self s) -> cache_ok (self (snd (async_refresh s))).
Proof.
  intros Hkeys Hcache. unfold async_refresh.
  destruct (poll_run s) as (r0 & s1 & r2 & s2 & Ht & Hf & Hp).
  assert (Hdata : data (self s2) = data (self s)).
  { pose proof (update_finally_data s1) as H. rewrite Hf in H. simpl in H.
    rewrite H, <- (update_try_self (timestamp s) s), Ht. reflexivity. }
  rewrite Hp.
  destruct r2 as [[] | e2];
    [destruct r0 as [d | e0] |]; simpl;
    try (unfold cache_ok, cached_accounts in *; rewrite Hdata; exact Hcache).
  unfold cache_ok, cached_accounts, dget. simpl.
  destruct (update_try_cases (timestamp s) s)
    as [(Hc & Hu) | (Hc & r & w & Hr & Hu)]; rewrite Hu in Ht.
  - rewrite (fill_info_accounts _ _ _ _ _ Hkeys Ht).
    apply orb_false_iff in Hc as (Hnone & _).
    unfold cache_ok in Hcache. rewrite Hnone in Hcache. simpl in Hcache.
    rewrite Hcache. apply orb_true_r.
  - destruct r as [a | e]; [| discriminate].
    destruct (truthy a) eqn:Ea.
    + rewrite (fill_info_accounts _ _ _ _ _ Hkeys Ht).
      rewrite Ea. apply orb_true_r.
    + injection Ht as <- _. unfold timestamp. simpl.
      destruct (String.eqb _ _); reflexivity.
Qed.

(** ** Shape priority *)

Lemma store_balance_state (new_data d : dict) (s s' : state) :
  store_balance new_data s = (Ok d, s') -> s' = s.
Proof.
  intros H.
  destruct (store_balance_cases new_data s) as [[e He] | [He | [b He]]];
    rewrite He in H; congruence.
Qed.

(** With a truthy [elsGroup], [fill_info] takes the ELS branch. *)
Lemma fill_info_els (new_data d nd : dict) (s s' : state) :
  keys_distinct = true ->
  truthy (dget d "elsGroup") = true ->
  fill_info new_data (VDict d) s = (Ok nd, s') ->
  dict_get nd (KStr ATTR_IS_ELS) = Some (VBool true)
  /\ (exists info,
        retrieve_els_accounts_info (VDict d) s = (Ok info, s')
        /\ dict_get nd (KStr CONF_INFO) = Some info)
  /\ exists new, calls s' = new ++ calls s
                 /\ Forall (fun cr => is_els_call (fst cr)) new.
Proof.
  intros Hk Hels. destruct (keys_distinct_spec Hk) as (_ & _ & _ & K4 & K5 & K6).
  unfold fill_info. rewrite Hels. unfold bind.
  destruct (traced_retrieve_els (VDict d) s) as (new & Hn & F & _).
  unfold added in Hn.
  destruct (retrieve_els_accounts_info (VDict d) s) as [[info |] s1];
    [| discriminate].
  intros H. pose proof (store_balance_state _ _ _ _ H) as ->.
  rewrite (store_balance_keeps _ _ _ _ _ H K5).
  rewrite (store_balance_keeps _ _ _ _ _ H K6).
  rewrite dict_get_set_other by assumption.
  rewrite !dict_get_set_same. eauto 10.
Qed.

(** C3.  Whenever the accounts a successful poll worked on carry a truthy
    [elsGroup], the result has [ATTR_IS_ELS] set to [True], its
    [CONF_INFO] is what [retrieve_els_accounts_info] returned for these
    accounts, and apart from the request for the accounts the poll issued
    ELS detail requests only, whatever the accounts hold under the LSPU
    keys. *)
Theorem els_takes_priority (s s' : state) (new_data d : dict) :
  keys_distinct = true ->
  _async_update_data s = (Ok new_data, s') ->
  dict_get new_data (KStr CONF_ACCOUNTS) = Some (VDict d) ->
  truthy (dget d "elsGroup") = true ->
  dict_get new_data (KStr ATTR_IS_ELS) = Some (VBool true)
  /\ (exists s1 s2 info,
        retrieve_els_accounts_info (VDict d) s1 = (Ok info, s2)
        /\ dict_get new_data (KStr CONF_INFO) = Some info)
  /\ (forall new,
        added _async_update_data s new ->
        Forall (fun cr => fst cr = GetAccounts \/ is_els_call (fst cr)) new).
Proof.
  intros Hkeys Hrun Hacc Hels.
  destruct (poll_run s) as (r0 & s1 & r2 & s2 & Ht & Hf & Hp).
  pose proof (update_finally_state s1) as (_ & Hcalls & _).
  rewrite Hf in Hcalls. simpl in Hcalls.
  rewrite Hp in Hrun. unfold added. rewrite Hp. simpl. rewrite Hcalls.
  destruct r2 as [[] | e2]; [| discriminate].
  destruct r0 as [nd | e0]; [| discriminate].
  injection Hrun as -> <-.
  assert (Hweak : forall new, Forall (fun cr => is_els_call (fst cr)) new ->
            Forall (fun cr : api_call * res value =>
                      fst cr = GetAccounts \/ is_els_call (fst cr)) new).
  { intros new. apply Forall_impl. auto. }
  destruct (update_try_cases (timestamp s) s)
    as [(Hc & Hu) | (Hc & r & w & Hr & Hu)]; rewrite Hu in Ht.
  - pose proof (fill_info_accounts _ _ _ _ _ Hkeys Ht) as Ha.
    rewrite Hacc in Ha. injection Ha as Ha. rewrite <- Ha in Ht.
    destruct (fill_info_els _ _ _ _ _ Hkeys Hels Ht)
      as (H1 & (info & H2 & H3) & new & Hn & F).
    split; [assumption |]. split; [eauto |].
    intros new' Hn'. rewrite Hn in Hn'. apply app_inv_tail in Hn'.
    subst new'. auto.
  - destruct r as [a | e]; [| discriminate].
    destruct (truthy a) eqn:Ea.
    + pose proof (fill_info_accounts _ _ _ _ _ Hkeys Ht) as Ha.
      rewrite Hacc in Ha. injection Ha as Ha. rewrite <- Ha in Ht.
      destruct (fill_info_els _ _ _ _ _ Hkeys Hels Ht)
        as (H1 & (info & H2 & H3) & new & Hn & F).
      split; [assumption |]. split; [eauto |].
      intros new' Hn'. rewrite Hn in Hn'. simpl in Hn'.
      assert (Hn'' : (new ++ [(GetAccounts, Ok (VDict d))]) ++ calls s
                     = new' ++ calls s)
        by (rewrite <- app_assoc; exact Hn').
      apply app_inv_tail in Hn''. subst new'.
      apply Forall_app. split; auto.
    + injection Ht as <- <-. unfold timestamp in Hacc. simpl in Hacc.
      destruct (String.eqb _ _); discriminate.
Qed.

(** ** Account path resolver *)

Lemma rbind_ok {A B} (r : res A) (k : A -> res B) (b : B) :
  rbind r k = Ok b -> exists a, r = Ok a /\ k a = Ok b.
Proof. destruct r as [a | e]; simpl; [eauto | discriminate]. Qed.

Lemma search_found {A R} (l : list A) (body : A -> res (option R)) (r : R) :
  search l body = Ok (Some r) -> exists x, In x l /\ body x = Ok (Some r).
Proof.
  induction l as [| x l IH]; simpl; [discriminate |].
  destruct (body x) as [[r' |] | e] eqn:E.
  - intros [= <-]. eauto.
  - intros H. destruct (IH H) as (y & Hy & Hb). eauto.
  - discriminate.
Qed.

Lemma in_range (n : nat) (z : Z) :
  In z (range n) -> (0 <= z < Z.of_nat n)%Z.
Proof.
  unfold range. rewrite in_map_iff. intros (i & <- & Hi).
  apply in_seq in Hi. lia.
Qed.

Lemma is_singleton_spec (ids : identifiers) (e : string * string) :
  is_singleton ids e = true -> ids <> [] /\ forall x, In x ids -> x = e.
Proof.
  destruct ids as [| y ids]; [discriminate |].
  unfold is_singleton. rewrite forallb_forall. intros H.
  split; [discriminate |]. intros x Hx. specialize (H x Hx).
  apply andb_true_iff in H as (H1 & H2).
  apply String.eqb_eq in H1, H2. destruct x, e; simpl in *. congruence.
Qed.

Lemma len_pos_truthy (v : value) (n : nat) :
  Py.len v = Ok n -> (0 < n)%nat -> truthy v = true.
Proof.
  destruct v as [| | | | s | l | d |]; simpl; try discriminate;
    intros [= <-] Hn.
  - destruct s; [simpl in Hn; lia | reflexivity].
  - destruct l; [simpl in Hn; lia | reflexivity].
  - destruct d; [simpl in Hn; lia | reflexivity].
Qed.

Lemma get_truthy_getitem (o v : value) (k : string) :
  Py.get o k VNone = Ok v -> truthy v = true -> getitem o (VStr k) = Ok v.
Proof.
  destruct o as [| | | | | | d |]; simpl; try discriminate.
  destruct (dict_get d (KStr k)); intros [= <-]; [reflexivity | discriminate].
Qed.

Lemma match_counter_found (c : coordinator) (ids : identifiers)
    (a : value) (i k : Z) (n m : nat) (accounts : value) (p : path) :
  get_lspu_accounts c a = Ok accounts ->
  Py.len accounts = Ok n -> (0 < n)%nat ->
  (forall counters, get_counters c a (VInt i) = Ok counters ->
                    Py.len counters = Ok m) ->
  (0 < m)%nat ->
  match_counter c ids a i k = Ok (Some p) ->
  p = (a, i, k) /\ resolved c ids a i k.
Proof.
  intros Haccs Hn Hnpos Hlen Hmpos. unfold match_counter.
  intros H.
  apply rbind_ok in H as (number & Hnum & H).
  apply rbind_ok in H as (counters & Hcs & H).
  apply rbind_ok in H as (counter & Hc & H).
  apply rbind_ok in H as (uuid & Hu & H).
  destruct (truthy uuid) eqn:Eu; simpl in H; [| discriminate].
  destruct (is_singleton ids _) eqn:Es; [| discriminate].
  injection H as <-. split; [reflexivity |].
  pose proof Hcs as Hcs'. unfold get_counters in Hcs'. rewrite Haccs in Hcs'.
  simpl in Hcs'.
  apply rbind_ok in Hcs' as (account & Hacct & Hget).
  pose proof Haccs as Hels. unfold get_lspu_accounts in Hels.
  apply rbind_ok in Hels as (x1 & _ & Hels).
  apply rbind_ok in Hels as (x2 & _ & Hels).
  apply rbind_ok in Hels as (els & Hels & _).
  assert (Hct : truthy counters = true).
  { eapply len_pos_truthy; eauto. }
  assert (Hat : truthy account = true).
  { destruct account as [| | | | | | [| kv d] |]; simpl in Hget;
      try discriminate; [| reflexivity].
    injection Hget as <-. discriminate. }
  econstructor; eauto using len_pos_truthy, get_truthy_getitem.
Qed.

(** A successful lookup returns either no component or all three, and
    the three components it returns are resolved. *)
Lemma find_sound (c : coordinator) (device_id : string)
    (oa : option value) (oi ok : option Z) :
  find_account_by_device_id c device_id = Ok (oa, oi, ok) ->
  (oa = None /\ oi = None /\ ok = None)
  \/ exists ids a i k,
       devices c device_id = Some ids
       /\ oa = Some a /\ oi = Some i /\ ok = Some k
       /\ resolved c ids a i k.
Proof.
  unfold find_account_by_device_id.
  destruct (devices c device_id) as [ids |]; [| discriminate].
  intros H.
  apply rbind_ok in H as (accounts & _ & H).
  apply rbind_ok in H as (account_ids & _ & H).
  apply rbind_ok in H as (found & Hfound & H).
  destruct found as [[[a i] k] |]; injection H as <- <- <-; [| auto].
  right. exists ids, a, i, k. repeat (split; [reflexivity |]).
  apply search_found in Hfound as (a' & _ & H).
  apply rbind_ok in H as (lspu_accounts & Haccs & H).
  apply rbind_ok in H as (n & Hn & H).
  apply search_found in H as (i' & Hi & H).
  apply rbind_ok in H as (counters & Hcs & H).
  apply rbind_ok in H as (m & Hm & H).
  apply search_found in H as (k' & Hk & H).
  apply in_range in Hi, Hk.
  apply (match_counter_found c ids a' i' k' n m lspu_accounts) in H
    as (Hp & Hres); auto; try lia.
  - injection Hp as <- <- <-. exact Hres.
  - intros counters' Hcs'. congruence.
Qed.

(** C10.  When the lookup of a device returns the path [(a, s, c)], the
    identifier made from [get_account_number(a, s)] and the UUID of the
    counter at [(a, s, c)] is, with [DOMAIN], the one element of the set
    of identifiers recorded for that device. *)
Theorem device_round_trip (c : coordinator) (device_id : string)
    (a : value) (i k : Z) :
  find_account_by_device_id c device_id = Ok (Some a, Some i, Some k) ->
  exists ids number counters counter uuid,
    devices c device_id = Some ids
    /\ get_account_number c a (VInt i) = Ok number
    /\ get_counters c a (VInt i) = Ok counters
    /\ getitem counters (VInt k) = Ok counter
    /\ Py.get counter ATTR_UUID VNone = Ok uuid
    /\ ids <> []
    /\ forall x, In x ids -> x = (DOMAIN, make_device_id number uuid).
Proof.
  intros H. apply find_sound in H as [(H & _) | H]; [discriminate |].
  destruct H as (ids & a' & i' & k' & Hd & [= <-] & [= <-] & [= <-] & R).
  destruct R as [accounts account number counters counter uuid els
                 _ _ _ _ _ Hnum Hcs _ Hc Hu _ _ Hid].
  apply is_singleton_spec in Hid as (Hne & Hin).
  eauto 12.
Qed.

(** ** Command dispatch *)

(** Sending a reading for a resolved path. *)
Lemma send_resolved (device_id : string) (reading : value) (s : state)
    (a : value) (i k : Z)
    (accounts account counters counter uuid els : value) :
  find_account_by_device_id (self s) device_id = Ok (Some a, Some i, Some k) ->
  is_els (self s) = Ok els ->
  get_lspu_accounts (self s) a = Ok accounts ->
  truthy accounts = true ->
  getitem accounts (VInt i) = Ok account ->
  truthy account = true ->
  get_counters (self s) a (VInt i) = Ok counters ->
  truthy counters = true ->
  getitem counters (VInt k) = Ok counter ->
  getitem counter (VStr ATTR_UUID) = Ok uuid ->
  truthy uuid = true ->
  async_send_readings device_id reading s
  = match getitem account (VStr ATTR_ACCOUNT_ID) with
    | Ok lspu_id =>
        request (IndicationSend lspu_id uuid reading
                   (if truthy els then a else VNone)) s
    | Raise e => (Raise e, s)
    end.
Proof.
  intros Hfind Hels Haccs Haccs_t Hacct Hacct_t Hcs Hcs_t Hc Hu Hu_t.
  unfold async_send_readings, bind, lift, get_self, assert_some, assert_,
    _async_send_readings, ret.
  rewrite Hfind. cbv beta iota. rewrite Haccs, Haccs_t. cbv beta iota.
  rewrite Hacct, Hacct_t. cbv beta iota.
  destruct (getitem account (VStr ATTR_ACCOUNT_ID)) as [lspu_id | e];
    [| reflexivity].
  rewrite Hels, Hcs, Hcs_t. cbv beta iota.
  rewrite Hc, Hu, Hu_t. reflexivity.
Qed.

(** C9.  When the lookup of the device yields a path that lacks a
    component, or fails, sending a reading raises and no request is
    issued.  When it yields a full path and the sub-account carries an
    account id, the reading is submitted with that id, the UUID of the
    counter on the path, the given value, and the account id of the path
    as ELS id when the shape is ELS, [None] otherwise.  In every case
    the call either raises without a request or issues the request. *)
Theorem send_readings_all_or_nothing
    (device_id : string) (reading : value) (s : state) :
  (forall oa oi ok,
     find_account_by_device_id (self s) device_id = Ok (oa, oi, ok) ->
     oa = None \/ oi = None \/ ok = None ->
     async_send_readings device_id reading s
     = (Raise (Exn AssertionError ""), s))
  /\ (forall e,
        find_account_by_device_id (self s) device_id = Raise e ->
        async_send_readings device_id reading s = (Raise e, s))
  /\ (forall a i k accounts account lspu_id,
        find_account_by_device_id (self s) device_id
        = Ok (Some a, Some i, Some k) ->
        get_lspu_accounts (self s) a = Ok accounts ->
        getitem accounts (VInt i) = Ok account ->
        getitem account (VStr ATTR_ACCOUNT_ID) = Ok lspu_id ->
        exists counters counter uuid els,
          get_counters (self s) a (VInt i) = Ok counters
          /\ getitem counters (VInt k) = Ok counter
          /\ getitem counter (VStr ATTR_UUID) = Ok uuid
          /\ is_els (self s) = Ok els
          /\ async_send_readings device_id reading s
             = request (IndicationSend lspu_id uuid reading
                          (if truthy els then a else VNone)) s)
  /\ ((exists e, async_send_readings device_id reading s = (Raise e, s))
      \/ exists lspu_id uuid els_id,
           async_send_readings device_id reading s
           = request (IndicationSend lspu_id uuid reading els_id) s).
Proof.
  split; [| split; [| split]].
  - intros oa oi ok Hfind Hnone.
    unfold async_send_readings, bind, lift, get_self, assert_some, raise, ret.
    rewrite Hfind. cbv beta iota.
    destruct oa, oi, ok; try reflexivity.
    destruct Hnone as [H | [H | H]]; discriminate.
  - intros e Hfind. unfold async_send_readings, bind, lift, get_self.
    rewrite Hfind. reflexivity.
  - intros a i k accounts account lspu_id Hfind Haccs Hacct Hid.
    destruct (find_sound _ _ _ _ _ Hfind) as [(H & _) | H]; [discriminate |].
    destruct H as (ids & a' & i' & k' & Hd & [= <-] & [= <-] & [= <-] & R).
    destruct R as [accounts' account' number counters counter uuid els
                   Hels Haccs' Haccs_t Hacct' Hacct_t Hnum Hcs Hcs_t Hc Hu Hu'
                   Hu_t Hident].
    assert (accounts' = accounts) by congruence. subst accounts'.
    assert (account' = account) by congruence. subst account'.
    exists counters, counter, uuid, els. repeat (split; [assumption |]).
    rewrite (send_resolved device_id reading s a i k accounts account
               counters counter uuid els) by assumption.
    rewrite Hid. reflexivity.
  - destruct (find_account_by_device_id (self s) device_id)
      as [[[oa oi] ok] | e] eqn:Hfind.
    + destruct (find_sound _ _ _ _ _ Hfind) as [(-> & -> & ->) | H].
      * left. eexists.
        unfold async_send_readings, bind, lift, get_self, assert_some, raise.
        rewrite Hfind. reflexivity.
      * destruct H as (ids & a & i & k & Hd & -> & -> & -> & R).
        destruct R as [accounts account number counters counter uuid els
                       Hels Haccs Haccs_t Hacct Hacct_t Hnum Hcs Hcs_t Hc Hu
                       Hu' Hu_t Hident].
        rewrite (send_resolved device_id reading s a i k accounts account
                   counters counter uuid els) by assumption.
        destruct (getitem account (VStr ATTR_ACCOUNT_ID)) as [lspu_id | e];
          eauto.
    + left. exists e. unfold async_send_readings, bind, lift, get_self.
      rewrite Hfind. reflexivity.
Qed.

(** * Further properties *)

(** ** Balance extraction, continued *)

Lemma scan_values_app (l1 l2 : list value) :
  scan_values (l1 ++ l2)
  = match scan_values l1 with
    | Some r => Some r
    | None => scan_values l2
    end.
Proof.
  induction l1 as [| v l1 IH]; simpl; [reflexivity |].
  destruct (truthy v); simpl; [| exact IH].
  destruct v as [| | | | | l | d |]; auto.
  - destruct (scan_list l); auto.
  - destruct (balance_in d); auto.
Qed.

Lemma scan_values_head (v : value) (rest : list value) (r : res float) :
  scan_values [v] = Some r -> scan_values (v :: rest) = Some r.
Proof.
  intros H. change (v :: rest) with ([v] ++ rest).
  rewrite scan_values_app, H. reflexivity.
Qed.

(** X2.  The first entry of [info] that bears a balance decides the
    result: entries before it that bear none, and all entries after it,
    well-formed or not, do not change what is returned. *)
Theorem extract_balance_first_entry_decides
    (before after : dict) (k : key) (v : value) (r : res float) :
  scan_values (map snd before) = None ->
  scan_values [v] = Some r ->
  _extract_balance_from_info (VDict (before ++ (k, v) :: after))
  = _extract_balance_from_info (VDict [(k, v)]).
Proof.
  intros Hb Hv. unfold _extract_balance_from_info.
  rewrite map_app, scan_values_app, Hb. simpl map.
  rewrite (scan_values_head _ _ _ Hv), Hv. reflexivity.
Qed.

Lemma scan_list_filter (items : list value) :
  scan_list items = scan_list (filter is_mapping items).
Proof.
  induction items as [| item rest IH]; simpl; [reflexivity |].
  destruct item as [| | | | | | d |]; simpl; auto.
  rewrite IH. reflexivity.
Qed.

Lemma scan_values_filter (values : list value) :
  scan_values values = scan_values (filter inspected values).
Proof.
  induction values as [| v rest IH]; [reflexivity |].
  cbn [filter]. unfold inspected at 1.
  destruct (truthy v) eqn:Et.
  - destruct v as [| | | | | l | d |]; cbn [is_list is_mapping orb andb];
      cbn [scan_values]; rewrite Et; cbn [negb]; rewrite <- ?IH; reflexivity.
  - cbn [andb scan_values]. rewrite Et. exact IH.
Qed.

(** X3.  Only non-empty lists and non-empty mappings among the values of
    [info], and only the mappings among the elements of such a list, take
    part in the scan: dropping everything else leaves the result as it
    is. *)
Theorem extract_balance_ignores_scalars (d : dict) (items : list value) :
  _extract_balance_from_info (VDict d)
  = _extract_balance_from_info
      (VDict (filter (fun kv => inspected (snd kv)) d))
  /\ scan_list items = scan_list (filter is_mapping items).
Proof.
  split; [| apply scan_list_filter].
  unfold _extract_balance_from_info.
  rewrite (scan_values_filter (map snd d)).
  assert (H : filter inspected (map snd d)
              = map snd (filter (fun kv => inspected (snd kv)) d)).
  { induction d as [| [k v] d IH]; simpl; [reflexivity |].
    destruct (inspected v); simpl; rewrite IH; reflexivity. }
  rewrite H. reflexivity.
Qed.

(** ** The poll, continued *)

Lemma update_finally_rest (s : state) :
  warnings (snd (update_finally s)) = warnings s
  /\ data (self (snd (update_finally s))) = data (self s)
  /\ devices (self (snd (update_finally s))) = devices (self s).
Proof.
  destruct (update_finally_cases s)
    as [(Ha & ->) | [(Ha & _ & h & m & sec & w & _ & _ & _ & ->)
                    | (Ha & Hw & ->)]]; simpl; auto.
Qed.

Lemma fabs_not_negative (f : float) : not_negative (fabs f).
Proof. destruct f as [[] | [] | | [] m e]; reflexivity. Qed.

Lemma retrieve_returns_mapping (sh : shape) (a r : value) (s s' : state) :
  retrieve sh a s = (Ok r, s') -> exists info, r = VDict info.
Proof.
  destruct sh; simpl; unfold retrieve_els_accounts_info,
    retrieve_lspu_accounts_info, bind, lift, ret.
  - destruct (Py.get a "elsGroup" VNone) as [g |]; [| discriminate].
    destruct (Py.iter (or_ g (VList []))) as [l |]; [| discriminate].
    destruct (for_each l els_step [] s) as [[info |] s1]; [| discriminate].
    intros [= <- <-]. eauto.
  - destruct (for_each _ lspu_step [] s) as [[info |] s1]; [| discriminate].
    intros [= <- <-]. eauto.
Qed.

Lemma store_balance_abs (new_data : dict) (s : state) :
  (exists e, store_balance new_data s = (Raise e, s))
  \/ store_balance new_data s = (Ok new_data, s)
  \/ exists b,
       store_balance new_data s
       = (Ok (dict_set new_data (KStr ATTR_BALANCE) (VFloat (fabs b))), s).
Proof.
  unfold store_balance, bind, lift, ret.
  destruct (_extract_balance_from_info _) as [[b |] | e]; eauto.
Qed.

Lemma keys_distinct_sym :
  keys_distinct = true ->
  key_eqb (KStr CONF_ACCOUNTS) (KStr ATTR_IS_ELS) = false
  /\ key_eqb (KStr CONF_ACCOUNTS) (KStr CONF_INFO) = false
  /\ key_eqb (KStr CONF_ACCOUNTS) (KStr ATTR_BALANCE) = false
  /\ key_eqb (KStr ATTR_IS_ELS) (KStr CONF_INFO) = false
  /\ key_eqb (KStr ATTR_IS_ELS) (KStr ATTR_BALANCE) = false
  /\ key_eqb (KStr CONF_INFO) (KStr ATTR_BALANCE) = false.
Proof.
  unfold keys_distinct. simpl.
  rewrite !andb_true_iff, !negb_true_iff.
  intros (((((H1 & H2) & H3) & H4) & H5) & H6). auto 10.
Qed.

(** Looks a key up in a dictionary built by [dict_set]. *)
Ltac dict_lookup :=
  repeat first
    [ rewrite dict_get_set_same
    | rewrite dict_get_set_other by assumption ].

(** What a successful [fill_info] has written and done. *)
Lemma fill_info_inv (nd0 nd : dict) (a : value) (s s' : state) :
  keys_distinct = true ->
  fill_info nd0 a s = (Ok nd, s') ->
  exists info,
    dict_get nd (KStr CONF_ACCOUNTS) = Some a
    /\ dict_get nd (KStr ATTR_IS_ELS) = Some (VBool (truthy (els_group a)))
    /\ dict_get nd (KStr CONF_INFO) = Some (VDict info)
    /\ (dict_get nd (KStr ATTR_BALANCE) = dict_get nd0 (KStr ATTR_BALANCE)
        \/ exists b, dict_get nd (KStr ATTR_BALANCE) = Some (VFloat (fabs b)))
    /\ ((truthy (els_group a) = true
         /\ retrieve ELS a s = (Ok (VDict info), s'))
        \/ (truthy (els_group a) = false /\ _get_lspu_list a <> []
            /\ retrieve LSPU a s = (Ok (VDict info), s'))
        \/ (truthy (els_group a) = false /\ _get_lspu_list a = []
            /\ nd = dict_set
                      (dict_set (dict_set nd0 (KStr CONF_ACCOUNTS) a)
                         (KStr CONF_INFO) (VDict []))
                      (KStr ATTR_IS_ELS) (VBool false)
            /\ s' = add_warning warn_no_shape s)).
Proof.
  intros Hk.
  destruct (keys_distinct_spec Hk) as (K1 & K2 & K3 & K4 & K5 & K6).
  destruct (keys_distinct_sym Hk) as (S1 & S2 & S3 & S4 & S5 & S6).
  assert (Hfilled : forall b info s1,
            store_balance
              (dict_set (dict_set (dict_set nd0 (KStr CONF_ACCOUNTS) a)
                           (KStr ATTR_IS_ELS) (VBool b))
                 (KStr CONF_INFO) (VDict info)) s1 = (Ok nd, s') ->
            s1 = s'
            /\ dict_get nd (KStr CONF_ACCOUNTS) = Some a
            /\ dict_get nd (KStr ATTR_IS_ELS) = Some (VBool b)
            /\ dict_get nd (KStr CONF_INFO) = Some (VDict info)
            /\ (dict_get nd (KStr ATTR_BALANCE) = dict_get nd0 (KStr ATTR_BALANCE)
                \/ exists f, dict_get nd (KStr ATTR_BALANCE)
                             = Some (VFloat (fabs f)))).
  { intros b info s1 H.
    split; [symmetry; eapply store_balance_state; eauto |].
    destruct (store_balance_abs
                (dict_set (dict_set (dict_set nd0 (KStr CONF_ACCOUNTS) a)
                             (KStr ATTR_IS_ELS) (VBool b))
                   (KStr CONF_INFO) (VDict info)) s1)
      as [[e He] | [He | [f He]]]; rewrite He in H; try discriminate;
      injection H as <- _; dict_lookup; repeat split; eauto. }
  unfold fill_info. fold (els_group a).
  destruct (truthy (els_group a)) eqn:Eels;
    [| destruct (_get_lspu_list a) as [| x l] eqn:El]; cbn [truthy]; unfold bind.
  - destruct (retrieve_els_accounts_info a s) as [[r |] s1] eqn:Er;
      [| discriminate].
    destruct (retrieve_returns_mapping ELS _ _ _ _ Er) as (info & ->).
    intros H. destruct (Hfilled _ _ _ H) as (-> & H1 & H2 & H3 & H4).
    exists info. auto 10.
  - unfold warning, ret. intros [= <- <-]. exists [].
    dict_lookup. repeat split; auto 10.
  - destruct (retrieve_lspu_accounts_info a s) as [[r |] s1] eqn:Er;
      [| discriminate].
    destruct (retrieve_returns_mapping LSPU _ _ _ _ Er) as (info & ->).
    intros H. destruct (Hfilled _ _ _ H) as (-> & H1 & H2 & H3 & H4).
    exists info. repeat split; auto.
    right. left. repeat split; auto. discriminate.
Qed.

(** The two ways a poll succeeds: without accounts, or through
    [fill_info]. *)
Lemma poll_ok_inv (s s' : state) (nd : dict) :
  _async_update_data s = (Ok nd, s') ->
  (exists a w,
     remote GetAccounts (env s) = (Ok a, w) /\ truthy a = false
     /\ nd = timestamp s
     /\ calls s' = (GetAccounts, Ok a) :: calls s
     /\ warnings s' = warn_no_accounts :: warnings s)
  \/ (exists a s0 s1,
        fill_info (timestamp s) a s0 = (Ok nd, s1)
        /\ calls s' = calls s1 /\ warnings s' = warnings s1
        /\ ((is_none (cached_accounts (self s)) || force_next_update (self s)
             = false /\ a = cached_accounts (self s) /\ s0 = s)
            \/ (is_none (cached_accounts (self s)) || force_next_update (self s)
                = true
                /\ truthy a = true
                /\ exists w, remote GetAccounts (env s) = (Ok a, w)
                             /\ s0 = add_call GetAccounts (Ok a) w s))).
Proof.
  intros Hrun.
  destruct (poll_run s) as (r0 & s1 & r2 & s2 & Ht & Hf & Hp).
  pose proof (update_finally_state s1) as (_ & Hcalls & _).
  pose proof (update_finally_rest s1) as (Hwarn & _).
  rewrite Hf in Hcalls, Hwarn. simpl in Hcalls, Hwarn.
  rewrite Hp in Hrun.
  destruct r2 as [[] | e2]; [| discriminate].
  destruct r0 as [d | e0]; [| discriminate].
  injection Hrun as -> <-.
  destruct (update_try_cases (timestamp s) s)
    as [(Hc & Hu) | (Hc & r & w & Hr & Hu)]; rewrite Hu in Ht.
  - right. exists (cached_accounts (self s)), s, s1. auto 10.
  - destruct r as [a | e]; [| discriminate].
    destruct (truthy a) eqn:Ea.
    + right. exists a, (add_call GetAccounts (Ok a) w s), s1.
      repeat split; auto. right. eauto 10.
    + left. injection Ht as <- <-. exists a, w.
      rewrite Hcalls, Hwarn. auto 10.
Qed.

Lemma timestamp_lookup (s : state) (k : string) (v : value) :
  dict_get (timestamp s) (KStr k) = Some v -> v = VDatetime (now (env s)).
Proof.
  unfold timestamp. simpl. destruct (String.eqb _ _); congruence.
Qed.

(** The requests of a poll that went through [fill_info]: the request for
    the accounts, if any, and those of the detail fetcher. *)
Lemma calls_after_accounts (P : api_call -> Prop) (s s0 s1 s' : state)
    (a : value) (new : list (api_call * res value)) :
  s0 = s \/ (exists w, s0 = add_call GetAccounts (Ok a) w s) ->
  calls s1 = new ++ calls s0 ->
  Forall (fun cr => P (fst cr)) new ->
  calls s' = calls s1 ->
  exists new',
    calls s' = new' ++ calls s
    /\ Forall (fun cr => fst cr = GetAccounts \/ P (fst cr)) new'.
Proof.
  intros H0 Hn F Hc.
  assert (F' : Forall (fun cr : api_call * res value =>
                         fst cr = GetAccounts \/ P (fst cr)) new).
  { eapply Forall_impl; [| exact F]. auto. }
  destruct H0 as [-> | (w & ->)].
  - exists new. split; congruence.
  - exists (new ++ [(GetAccounts, Ok a)]). split.
    + rewrite Hc, Hn, <- app_assoc. reflexivity.
    + apply Forall_app. split; auto.
Qed.

Lemma retrieve_calls (sh : shape) (a : value) (s : state) :
  exists new,
    calls (snd (retrieve sh a s)) = new ++ calls s
    /\ Forall (fun cr => match sh with
                         | ELS => is_els_call (fst cr)
                         | LSPU => is_lspu_call (fst cr)
                         end) new.
Proof.
  destruct sh; simpl.
  - destruct (traced_retrieve_els a s) as (new & Hn & F & _). eauto.
  - destruct (traced_retrieve_lspu a s) as (new & Hn & F & _). eauto.
Qed.

(** X5.  Whenever the accounts a successful poll worked on have no truthy
    [elsGroup] but a non-empty LSPU list, the result has [ATTR_IS_ELS] set
    to [False], its [CONF_INFO] is what [retrieve_lspu_accounts_info]
    returned for these accounts, and apart from the request for the
    accounts the poll issued LSPU detail requests only. *)
Theorem lspu_branch_without_els (s s' : state) (nd : dict) (a : value) :
  keys_distinct = true ->
  _async_update_data s = (Ok nd, s') ->
  dict_get nd (KStr CONF_ACCOUNTS) = Some a ->
  truthy (els_group a) = false ->
  _get_lspu_list a <> [] ->
  dict_get nd (KStr ATTR_IS_ELS) = Some (VBool false)
  /\ (exists s1 s2 info,
        retrieve_lspu_accounts_info a s1 = (Ok info, s2)
        /\ dict_get nd (KStr CONF_INFO) = Some info)
  /\ exists new,
       added _async_update_data s new
       /\ Forall (fun cr => fst cr = GetAccounts \/ is_lspu_call (fst cr)) new.
Proof.
  intros Hk Hrun Hacc Hels Hne. unfold added. rewrite Hrun. simpl.
  destruct (poll_ok_inv _ _ _ Hrun)
    as [(a0 & w & _ & _ & -> & _) | (a0 & s0 & s1 & Hfill & Hc & _ & Hs0)].
  - apply timestamp_lookup in Hacc. subst a. contradiction Hne. reflexivity.
  - destruct (fill_info_inv _ _ _ _ _ Hk Hfill)
      as (info & H1 & H2 & H3 & _ & Hb).
    assert (a0 = a) by congruence. subst a0.
    rewrite Hels in H2.
    destruct Hb as [(Hb & _) | [(_ & _ & Hr) | (_ & Hb & _)]];
      [congruence | | contradiction].
    split; [assumption |]. split; [eauto |].
    destruct (retrieve_calls LSPU a s0) as (new & Hn & F).
    rewrite Hr in Hn. simpl in Hn.
    assert (H0 : s0 = s \/ (exists w, s0 = add_call GetAccounts (Ok a) w s)).
    { destruct Hs0 as [(_ & _ & ->) | (_ & _ & w & _ & ->)]; eauto. }
    exact (calls_after_accounts is_lspu_call s s0 s1 s' a new H0 Hn F Hc).
Qed.

(** X6.  Accounts of neither shape do not make a poll fail.  Whether they
    come from the cache or from a fresh request, the poll succeeds with
    [CONF_INFO] an empty mapping and [ATTR_IS_ELS] [False], logs one
    warning and issues no detail request. *)
Theorem empty_shape_poll_succeeds (s : state) (a : value) :
  window_ok (self s) ->
  truthy (els_group a) = false ->
  _get_lspu_list a = [] ->
  (is_none (cached_accounts (self s)) || force_next_update (self s) = false
   /\ a = cached_accounts (self s))
  \/ (is_none (cached_accounts (self s)) || force_next_update (self s) = true
      /\ truthy a = true
      /\ exists w, remote GetAccounts (env s) = (Ok a, w)) ->
  fst (_async_update_data s) = Ok (empty_result s a)
  /\ warnings (snd (_async_update_data s)) = warn_no_shape :: warnings s
  /\ exists new,
       added _async_update_data s new
       /\ Forall (fun cr => fst cr = GetAccounts) new.
Proof.
  intros Hw Hels Hl Hsrc.
  assert (Hfill : forall s0,
            fill_info (timestamp s) a s0
            = (Ok (empty_result s a), add_warning warn_no_shape s0)).
  { intros s0. unfold fill_info. fold (els_group a).
    rewrite Hels, Hl. reflexivity. }
  destruct (poll_run s) as (r0 & s1 & r2 & s2 & Ht & Hf & Hp).
  pose proof (update_finally_state s1) as (_ & Hcalls & _).
  pose proof (update_finally_rest s1) as (Hwarn & _).
  rewrite Hf in Hcalls, Hwarn. simpl in Hcalls, Hwarn.
  assert (Hok : r2 = Ok tt).
  { assert (Hs : self s1 = self s).
    { rewrite <- (update_try_self (timestamp s) s), Ht. reflexivity. }
    rewrite <- Hs in Hw. apply update_finally_ok in Hw.
    rewrite Hf in Hw. exact Hw. }
  subst r2. unfold added. rewrite Hp. simpl. rewrite Hcalls, Hwarn.
  destruct (update_try_cases (timestamp s) s)
    as [(Hc & Hu) | (Hc & r & w & Hr & Hu)]; rewrite Hu in Ht;
    destruct Hsrc as [(Hc' & Ha) | (Hc' & Ha & w' & Hr')]; try congruence.
  - subst a. rewrite Hfill in Ht. injection Ht as <- <-.
    simpl. repeat split. exists []. auto.
  - rewrite Hr' in Hr. injection Hr as <- <-.
    rewrite Ha, Hfill in Ht. injection Ht as <- <-.
    simpl. repeat split. exists [(GetAccounts, Ok a)]. auto.
Qed.

(** X7.  The result of a successful poll is either the timestamp alone, or
    it holds the accounts, a mapping under [CONF_INFO], and under
    [ATTR_IS_ELS] the boolean that tells whether the accounts have a truthy
    [elsGroup]: the three are always written together. *)
Theorem poll_result_shape (s s' : state) (nd : dict) :
  keys_distinct = true ->
  _async_update_data s = (Ok nd, s') ->
  nd = timestamp s
  \/ exists a info,
       dict_get nd (KStr CONF_ACCOUNTS) = Some a
       /\ dict_get nd (KStr ATTR_IS_ELS) = Some (VBool (truthy (els_group a)))
       /\ dict_get nd (KStr CONF_INFO) = Some (VDict info).
Proof.
  intros Hk Hrun.
  destruct (poll_ok_inv _ _ _ Hrun)
    as [(a0 & w & _ & _ & -> & _) | (a0 & s0 & s1 & Hfill & _)]; [auto |].
  destruct (fill_info_inv _ _ _ _ _ Hk Hfill) as (info & H1 & H2 & H3 & _).
  right. eauto.
Qed.

(** X4.  A balance in the result of a poll is a float that is not
    negative. *)
Theorem poll_balance_not_negative (s s' : state) (nd : dict) (v : value) :
  keys_distinct = true ->
  String.eqb ATTR_LAST_UPDATE_TIME ATTR_BALANCE = false ->
  _async_update_data s = (Ok nd, s') ->
  dict_get nd (KStr ATTR_BALANCE) = Some v ->
  exists f, v = VFloat f /\ not_negative f.
Proof.
  intros Hk Hts Hrun Hv.
  assert (Hnone : dict_get (timestamp s) (KStr ATTR_BALANCE) = None).
  { unfold timestamp. simpl. rewrite Hts. reflexivity. }
  destruct (poll_ok_inv _ _ _ Hrun)
    as [(a0 & w & _ & _ & -> & _) | (a0 & s0 & s1 & Hfill & _)];
    [congruence |].
  destruct (fill_info_inv _ _ _ _ _ Hk Hfill)
    as (info & _ & _ & _ & [Hb | (b & Hb)] & _); [congruence |].
  exists (fabs b). split; [congruence | apply fabs_not_negative].
Qed.

Lemma traced_update_try_poll (new_data : dict) :
  traced is_poll_call (update_try new_data).
Proof.
  unfold update_try, _async_get_accounts.
  apply traced_bind; [auto with traced | intros c].
  assert (Hfill : forall a, traced is_poll_call (fill_info new_data a)).
  { intros a. eapply traced_weaken; [| apply traced_fill_info].
    intros x Hx. right. exact Hx. }
  destruct (_ || _); [| apply Hfill].
  apply traced_bind; [apply traced_request; left; reflexivity | intros a].
  destruct (truthy a); [apply Hfill | traced_steps].
Qed.

(** X8.  A poll never writes [self.data], the auto-update setting or the
    device registry, and the only requests it issues are the one for the
    accounts and detail requests: it never submits a reading. *)
Theorem poll_leaves_data_alone (s : state) :
  data (self (snd (_async_update_data s))) = data (self s)
  /\ auto_update (self (snd (_async_update_data s))) = auto_update (self s)
  /\ devices (self (snd (_async_update_data s))) = devices (self s)
  /\ exists new,
       added _async_update_data s new
       /\ Forall (fun cr => is_poll_call (fst cr)) new.
Proof.
  destruct (poll_run s) as (r0 & s1 & r2 & s2 & Ht & Hf & Hp).
  pose proof (update_finally_state s1) as (_ & Hcalls & Hauto).
  pose proof (update_finally_rest s1) as (_ & Hdata & Hdev).
  rewrite Hf in Hcalls, Hauto, Hdata, Hdev. simpl in *.
  destruct (traced_update_try_poll (timestamp s) s) as (new & Hn & F & _ & Hs).
  unfold added in *. rewrite Ht in Hn, Hs. simpl in Hn, Hs.
  rewrite Hp. simpl. rewrite Hdata, Hauto, Hdev, Hcalls, Hs.
  repeat split. eauto.
Qed.

(** X9.  With auto-update on and an empty hour window, every poll fails
    with the [ValueError] of [randrange], whatever its [try] body did;
    the force flag is cleared all the same and the interval is left as
    it was. *)
Theorem empty_window_fails_every_poll (s : state) :
  auto_update (self s) = true ->
  (UPDATE_HOUR_END <= UPDATE_HOUR_BEGIN)%Z ->
  (exists e, fst (_async_update_data s) = Raise e /\ exn_cls e = ValueError)
  /\ force_next_update (self (snd (_async_update_data s))) = false
  /\ update_interval (self (snd (_async_update_data s)))
     = update_interval (self s).
Proof.
  intros Ha Hw.
  destruct (poll_run s) as (r0 & s1 & r2 & s2 & Ht & Hf & Hp).
  assert (Hs : self s1 = self s).
  { rewrite <- (update_try_self (timestamp s) s), Ht. reflexivity. }
  rewrite Hp. simpl.
  destruct (update_finally_cases s1)
    as [(Ha' & _) | [(_ & Hlt & _) | (_ & _ & H)]].
  - rewrite Hs in Ha'. congruence.
  - lia.
  - rewrite H in Hf. injection Hf as <- <-. simpl. rewrite Hs.
    repeat split. eexists. split; reflexivity.
Qed.

(** ** Detail fetchers, continued *)

Lemma detail_call_inj (sh : shape) (n n' : Z) :
  detail_call sh n = detail_call sh n' -> n = n'.
Proof. destruct sh; simpl; congruence. Qed.

Lemma dict_get_set_inv (d : dict) (k k' : key) (x x' : value) :
  dict_get (dict_set d k' x') k = Some x ->
  (k = k' /\ x = x') \/ dict_get d k = Some x.
Proof.
  destruct (key_eqb k' k) eqn:E.
  - apply key_eqb_eq in E. subst k'. rewrite dict_get_set_same.
    intros [= <-]. auto.
  - rewrite dict_get_set_other by exact E. auto.
Qed.

(** One turn of a fetcher's loop: no request, an answered request, or a
    request that raises. *)
Lemma step_inv (sh : shape) (acc : dict) (item : value) (s : state) :
  (calls (snd (step sh acc item s)) = calls s
   /\ (fst (step sh acc item s) = Ok acc
       \/ exists e, fst (step sh acc item s) = Raise e))
  \/ (exists n v,
        calls (snd (step sh acc item s))
        = (detail_call sh n, Ok v) :: calls s
        /\ fst (step sh acc item s)
           = Ok (if truthy v then dict_set acc (KInt n) (stored sh v) else acc))
  \/ (exists n e,
        calls (snd (step sh acc item s))
        = (detail_call sh n, Raise e) :: calls s
        /\ fst (step sh acc item s) = Raise e).
Proof.
  destruct sh; simpl step; simpl detail_call; simpl stored;
    unfold els_step, lspu_step, _async_get_els_info, _async_get_lspu_info,
      bind, lift, warning, ret, request.
  - destruct (Py.get item "els" (VDict [])) as [e |]; simpl;
      [| left; split; [reflexivity | right; eexists; reflexivity]].
    destruct (Py.get e "id" VNone) as [i |]; simpl;
      [| left; split; [reflexivity | right; eexists; reflexivity]].
    destruct (truthy i); simpl;
      [| left; split; [reflexivity | left; reflexivity]].
    destruct (int_ i) as [n | e']; simpl;
      [| left; split; [reflexivity | right; eexists; reflexivity]].
    destruct (remote (GetElsInfo n) (env s)) as [[v | e'] w]; simpl.
    + right. left. exists n, v. destruct (truthy v); split; reflexivity.
    + right. right. exists n, e'. split; reflexivity.
  - destruct (Py.get item "id" VNone) as [i |]; simpl;
      [| left; split; [reflexivity | right; eexists; reflexivity]].
    destruct (truthy i); simpl;
      [| left; split; [reflexivity | left; reflexivity]].
    destruct (int_ i) as [n | e']; simpl;
      [| left; split; [reflexivity | right; eexists; reflexivity]].
    destruct (remote (GetLspuInfo n) (env s)) as [[v | e'] w]; simpl.
    + right. left. exists n, v.
      destruct (truthy v); [destruct v |]; split; reflexivity.
    + right. right. exists n, e'. split; reflexivity.
Qed.

(** The requests of a fetcher's loop: at most one per item, and none
    after one that raised. *)
Lemma for_each_trace (sh : shape) (l : list value) :
  forall (acc : dict) (s : state),
  exists new,
    calls (snd (for_each l (step sh) acc s)) = new ++ calls s
    /\ (List.length new <= List.length l)%nat
    /\ (forall c e,
          In (c, Raise e) new ->
          fst (for_each l (step sh) acc s) = Raise e
          /\ exists tl, new = (c, Raise e) :: tl).
Proof.
  induction l as [| x rest IH]; intros acc s.
  - exists []. simpl. split; [reflexivity |]. split; [lia |]. intros c e [].
  - cbn [for_each]. unfold bind.
    pose proof (step_inv sh acc x s) as Hstep.
    destruct (step sh acc x s) as [r s1]. simpl in Hstep.
    destruct Hstep as [(Hc & Hr) | [(n & v & Hc & Hr) | (n & e & Hc & Hr)]].
    + destruct Hr as [-> | (e & ->)].
      * destruct (IH acc s1) as (new & Hn & Hlen & Hab).
        exists new. rewrite Hn, Hc. split; [reflexivity |].
        split; [simpl; lia | exact Hab].
      * exists []. simpl. split; [assumption |]. split; [lia |].
        intros c e' [].
    + subst r. set (acc' := if truthy v then _ else _).
      destruct (IH acc' s1) as (new & Hn & Hlen & Hab).
      exists (new ++ [(detail_call sh n, Ok v)]).
      rewrite Hn, Hc, <- app_assoc. split; [reflexivity |].
      split; [rewrite List.length_app; simpl; lia |].
      intros c e Hin. apply in_app_or in Hin as [Hin | [Hin | []]];
        [| discriminate].
      destruct (Hab c e Hin) as (Hres & tl & ->).
      split; [assumption |]. eexists. reflexivity.
    + subst r. exists [(detail_call sh n, Raise e)].
      simpl. rewrite Hc. split; [reflexivity |]. split; [lia |].
      intros c e' [[= <- <-] | []]. eauto.
Qed.

(** The entries of a fetcher's loop that ended well, against the
    requests it made. *)
Lemma for_each_entries (sh : shape) (l : list value) :
  forall (acc info : dict) (s s' : state),
    for_each l (step sh) acc s = (Ok info, s') ->
    exists new,
      calls s' = new ++ calls s
      /\ (forall k x,
            dict_get info k = Some x ->
            dict_get acc k = Some x
            \/ exists n v,
                 k = KInt n /\ In (detail_call sh n, Ok v) new
                 /\ truthy v = true /\ x = stored sh v)
      /\ (forall n v,
            In (detail_call sh n, Ok v) new -> truthy v = true ->
            has_key info (KInt n) = true).
Proof.
  induction l as [| x rest IH]; intros acc info s s'.
  - simpl. intros [= <- <-]. exists []. split; [reflexivity |].
    split; [auto |]. intros n v [].
  - cbn [for_each]. unfold bind.
    pose proof (step_inv sh acc x s) as Hstep.
    destruct (step sh acc x s) as [r s1] eqn:Es. simpl in Hstep.
    destruct Hstep as [(Hc & Hr) | [(n & v & Hc & Hr) | (n & e & Hc & Hr)]].
    + destruct Hr as [-> | (e & ->)]; [| discriminate].
      intros H. destruct (IH _ _ _ _ H) as (new & Hn & Hs & Hcpl).
      exists new. rewrite Hn, Hc. auto.
    + subst r. intros H.
      destruct (IH _ _ _ _ H) as (new & Hn & Hs & Hcpl).
      exists (new ++ [(detail_call sh n, Ok v)]).
      rewrite Hn, Hc, <- app_assoc. split; [reflexivity |]. split.
      * intros k y Hk. destruct (Hs k y Hk) as [Hacc | (n' & v' & -> & Hin & Ht & ->)].
        -- destruct (truthy v) eqn:Ev; [| auto].
           apply dict_get_set_inv in Hacc as [(-> & ->) | Hacc]; [| auto].
           right. exists n, v. repeat split; auto.
           apply in_or_app. right. left. reflexivity.
        -- right. exists n', v'. repeat split; auto.
           apply in_or_app. auto.
      * intros n' v' Hin Ht.
        apply in_app_or in Hin as [Hin | [Hin | []]]; [eauto |].
        injection Hin as Hcall <-. apply detail_call_inj in Hcall. subst n'.
        rewrite Ht in H.
        eapply for_each_keeps_keys; [exact H |].
        unfold has_key. rewrite dict_get_set_same. reflexivity.
    + subst r. discriminate.
Qed.

(** A fetcher is its loop over [items], unless it fails before. *)
Lemma retrieve_loop (sh : shape) (a : value) (s : state) :
  (items sh a = [] /\ exists e, retrieve sh a s = (Raise e, s))
  \/ retrieve sh a s
     = (match fst (for_each (items sh a) (step sh) [] s) with
        | Ok info => Ok (VDict info)
        | Raise e => Raise e
        end, snd (for_each (items sh a) (step sh) [] s)).
Proof.
  destruct sh; unfold retrieve, items.
  - unfold retrieve_els_accounts_info, bind, lift, ret.
    destruct (Py.get a "elsGroup" VNone) as [g | e]; simpl rbind;
      [| left; eauto].
    destruct (Py.iter (or_ g (VList []))) as [l | e]; [| left; eauto].
    right. simpl step. destruct (for_each l els_step [] s) as [[info | e] s1];
      reflexivity.
  - right. unfold retrieve_lspu_accounts_info, bind, ret. simpl step.
    destruct (for_each (_get_lspu_list a) lspu_step [] s) as [[info | e] s1];
      reflexivity.
Qed.

(** X10.  The mapping a detail fetcher returns holds exactly what was
    fetched: each entry is the (stored form of the) truthy answer to a
    request of this batch for its key, and every request of the batch that
    was answered with a truthy value has its id among the keys. *)
Theorem fetched_entries_match_answers
    (sh : shape) (a : value) (info : dict) (s s' : state) :
  retrieve sh a s = (Ok (VDict info), s') ->
  exists new,
    added (retrieve sh a) s new
    /\ (forall k x,
          dict_get info k = Some x ->
          exists n v,
            k = KInt n /\ In (detail_call sh n, Ok v) new
            /\ truthy v = true /\ x = stored sh v)
    /\ (forall n v,
          In (detail_call sh n, Ok v) new -> truthy v = true ->
          has_key info (KInt n) = true).
Proof.
  intros Hrun. unfold added. rewrite Hrun. simpl.
  destruct (retrieve_loop sh a s) as [(_ & e & He) | Hl]; [congruence |].
  rewrite Hl in Hrun.
  destruct (for_each (items sh a) (step sh) [] s) as [[info' | e] s1] eqn:El;
    simpl in Hrun; [| discriminate].
  injection Hrun as <- <-.
  destruct (for_each_entries _ _ _ _ _ _ El) as (new & Hn & Hs & Hc).
  exists new. split; [assumption |]. split; [| assumption].
  intros k x Hk. destruct (Hs k x Hk) as [H | H]; [discriminate | exact H].
Qed.

(** X11.  In the mapping a detail fetcher returns, every key is an
    integer and every value is truthy; the LSPU fetcher stores non-empty
    lists only. *)
Theorem fetched_entries_well_formed
    (sh : shape) (a : value) (info : dict) (s s' : state) (k : key) (x : value) :
  retrieve sh a s = (Ok (VDict info), s') ->
  dict_get info k = Some x ->
  (exists n, k = KInt n)
  /\ truthy x = true
  /\ match sh with
     | ELS => True
     | LSPU => exists y l, x = VList (y :: l)
     end.
Proof.
  intros Hrun Hk.
  destruct (retrieve_loop sh a s) as [(_ & e & He) | Hl]; [congruence |].
  rewrite Hl in Hrun.
  destruct (for_each (items sh a) (step sh) [] s) as [[info' | e] s1] eqn:El;
    simpl in Hrun; [| discriminate].
  injection Hrun as <- <-.
  destruct (for_each_entries _ _ _ _ _ _ El) as (new & _ & Hs & _).
  destruct (Hs k x Hk) as [H | (n & v & -> & _ & Ht & ->)]; [discriminate |].
  split; [eauto |].
  destruct sh; simpl; [auto |].
  destruct v as [| | | | | [| y l] | |]; simpl; try discriminate; eauto.
Qed.

(** X12.  A detail fetcher issues at most one request per list item, and
    none when there is nothing to visit. *)
Theorem one_request_per_item (sh : shape) (a : value) (s : state) :
  exists new,
    added (retrieve sh a) s new
    /\ (List.length new <= List.length (items sh a))%nat.
Proof.
  unfold added.
  destruct (retrieve_loop sh a s) as [(Hi & e & He) | Hl].
  - rewrite He, Hi. exists []. auto.
  - rewrite Hl. simpl.
    destruct (for_each_trace sh (items sh a) [] s) as (new & Hn & Hlen & _).
    eauto.
Qed.

(** X13.  A detail request that raises ends the batch: the fetcher raises
    that very exception, and the failed request is the last one it
    issued. *)
Theorem failed_request_ends_batch
    (sh : shape) (a : value) (s : state)
    (new : list (api_call * res value)) (c : api_call) (e : exn) :
  added (retrieve sh a) s new ->
  In (c, Raise e) new ->
  fst (retrieve sh a s) = Raise e
  /\ exists earlier, new = (c, Raise e) :: earlier.
Proof.
  unfold added. intros Hadd Hin.
  destruct (retrieve_loop sh a s) as [(_ & e' & He) | Hl].
  - rewrite He in Hadd. simpl in Hadd.
    assert (new = []).
    { apply (app_inv_tail (calls s)). exact (eq_sym Hadd). }
    subst new. destruct Hin.
  - rewrite Hl in Hadd |- *. simpl in Hadd |- *.
    destruct (for_each_trace sh (items sh a) [] s) as (new' & Hn & _ & Hab).
    rewrite Hn in Hadd. apply app_inv_tail in Hadd. subst new'.
    destruct (Hab c e Hin) as (-> & tl & ->). eauto.
Qed.

(** ** Account path resolver, continued *)

Lemma search_none {A R} (l : list A) (body : A -> res (option R)) :
  search l body = Ok None -> forall x, In x l -> body x = Ok None.
Proof.
  induction l as [| y l IH]; simpl; [intros _ x [] |].
  destruct (body y) as [[r |] | e] eqn:E; try discriminate.
  intros H x [<- | Hx]; auto.
Qed.

Lemma range_in (n : nat) (z : Z) :
  (0 <= z < Z.of_nat n)%Z -> In z (range n).
Proof.
  intros Hz. unfold range. apply in_map_iff. exists (Z.to_nat z).
  split; [lia |]. apply in_seq. lia.
Qed.

(** The paths a lookup returns and the paths it visits. *)
Lemma find_on_scan (c : coordinator) (device_id : string)
    (a : value) (i k : Z) :
  find_account_by_device_id c device_id = Ok (Some a, Some i, Some k) ->
  on_scan c a i k.
Proof.
  unfold find_account_by_device_id.
  destruct (devices c device_id) as [ids |]; [| discriminate].
  intros H.
  apply rbind_ok in H as (accounts & Haccs & H).
  apply rbind_ok in H as (account_ids & Hids & H).
  apply rbind_ok in H as (found & Hfound & H).
  destruct found as [[[a0 i0] k0] |]; [| discriminate].
  injection H as -> -> ->.
  apply search_found in Hfound as (a' & Ha' & H).
  apply rbind_ok in H as (lspu_accounts & Hl & H).
  apply rbind_ok in H as (n & Hn & H).
  apply search_found in H as (i' & Hi & H).
  apply rbind_ok in H as (counters & Hcs & H).
  apply rbind_ok in H as (m & Hm & H).
  apply search_found in H as (k' & Hk & H).
  apply in_range in Hi, Hk.
  assert (Hp : (a, i, k) = (a', i', k')).
  { unfold match_counter in H.
    apply rbind_ok in H as (x1 & _ & H).
    apply rbind_ok in H as (x2 & _ & H).
    apply rbind_ok in H as (x3 & _ & H).
    apply rbind_ok in H as (x4 & _ & H).
    destruct (negb (truthy x4)); [discriminate |].
    destruct (is_singleton _ _); congruence. }
  injection Hp as -> -> ->.
  exists accounts, account_ids, lspu_accounts, n, counters, m. auto 10.
Qed.

(** X14.  The lookup of a device never returns a partial path: it yields
    no component or all three, and then the account id is one of the data,
    the sub-account index lies within the sub-accounts of that account and
    the counter index within the counters of that sub-account. *)
Theorem find_returns_whole_paths (c : coordinator) (device_id : string)
    (oa : option value) (oi ok : option Z) :
  find_account_by_device_id c device_id = Ok (oa, oi, ok) ->
  (oa = None /\ oi = None /\ ok = None)
  \/ exists a i k,
       oa = Some a /\ oi = Some i /\ ok = Some k /\ on_scan c a i k.
Proof.
  intros H.
  destruct (find_sound _ _ _ _ _ H) as [Hn | (ids & a & i & k & _ & -> & -> & -> & _)];
    [auto |].
  right. exists a, i, k. repeat split. eapply find_on_scan; eauto.
Qed.

(** X15.  The lookup of a known device yields no path only when no
    visited path carries the identifier of the device: for every path it
    visits, the identifier made from the account number and the UUID of the
    counter is not the one recorded for the device. *)
Theorem find_nothing_means_no_match (c : coordinator) (device_id : string)
    (ids : identifiers) (a : value) (i k : Z) (e : string * string) :
  devices c device_id = Some ids ->
  find_account_by_device_id c device_id = Ok (None, None, None) ->
  on_scan c a i k ->
  path_identifier c a i k e ->
  is_singleton ids e = false.
Proof.
  intros Hd Hfind Hscan (number & counters & counter & uuid
                          & Hnum & Hcs & Hc & Hu & ->).
  destruct Hscan as (accounts & account_ids & lspu_accounts & n & counters'
                     & m & Haccs & Hids & Ha & Hl & Hn & Hi & Hcs' & Hm & Hk).
  unfold find_account_by_device_id in Hfind. rewrite Hd, Haccs in Hfind.
  simpl in Hfind. rewrite Hids in Hfind. simpl in Hfind.
  apply rbind_ok in Hfind as (found & Hfound & H).
  destruct found as [[[a0 i0] k0] |]; [discriminate |].
  pose proof (search_none _ _ Hfound a Ha) as H1. cbv beta in H1.
  rewrite Hl in H1. cbn [rbind] in H1. rewrite Hn in H1. cbn [rbind] in H1.
  pose proof (search_none _ _ H1 i (range_in _ _ Hi)) as H2. cbv beta in H2.
  rewrite Hcs' in H2. cbn [rbind] in H2. rewrite Hm in H2. cbn [rbind] in H2.
  pose proof (search_none _ _ H2 k (range_in _ _ Hk)) as H3.
  unfold match_counter in H3. rewrite Hnum in H3. cbn [rbind] in H3.
  rewrite Hcs in H3. cbn [rbind] in H3.
  rewrite Hc in H3. cbn [rbind] in H3. rewrite Hu in H3. cbn [rbind] in H3.
  destruct (truthy uuid); simpl in H3; [| discriminate].
  destruct (is_singleton _ _); [discriminate | reflexivity].
Qed.

(** ** Refreshes *)

Lemma async_refresh_state (s : state) :
  snd (async_refresh s)
  = match fst (_async_update_data s) with
    | Ok d => stored_result (snd (_async_update_data s)) d
    | Raise _ => snd (_async_update_data s)
    end.
Proof.
  unfold async_refresh. destruct (_async_update_data s) as [[d | e] s1];
    reflexivity.
Qed.

Lemma poll_final_state (s : state) :
  force_next_update (self (snd (_async_update_data s))) = false
  /\ calls (snd (_async_update_data s))
     = calls (snd (update_try (timestamp s) s)).
Proof.
  destruct (poll_run s) as (r0 & s1 & r2 & s2 & Ht & Hf & Hp).
  pose proof (update_finally_state s1) as (Hforce & Hcalls & _).
  rewrite Hf in Hforce, Hcalls. simpl in Hforce, Hcalls.
  rewrite Hp, Ht. simpl. auto.
Qed.

Lemma async_refresh_final (s : state) :
  force_next_update (self (snd (async_refresh s))) = false
  /\ calls (snd (async_refresh s)) = calls (snd (_async_update_data s)).
Proof.
  rewrite async_refresh_state.
  destruct (poll_final_state s) as (Hforce & _).
  destruct (fst (_async_update_data s)); simpl; auto.
Qed.

(** The accounts a successful poll stored are not [None]. *)
Lemma stored_accounts_not_none (s s' : state) (nd : dict) (a : value) :
  keys_distinct = true ->
  cache_ok (self s) ->
  _async_update_data s = (Ok nd, s') ->
  dict_get nd (KStr CONF_ACCOUNTS) = Some a ->
  is_none a = false.
Proof.
  intros Hk Hcache Hrun Ha.
  destruct (poll_ok_inv _ _ _ Hrun)
    as [(a0 & w & _ & _ & -> & _) | (a0 & s0 & s1 & Hfill & _ & _ & Hs0)].
  - apply timestamp_lookup in Ha. subst a. reflexivity.
  - destruct (fill_info_inv _ _ _ _ _ Hk Hfill) as (info & H1 & _).
    assert (a0 = a) by congruence. subst a0.
    destruct Hs0 as [(Hc & Heq & _) | (_ & Ht & _)].
    + apply orb_false_iff in Hc as (Hn & _). congruence.
    + destruct a; try reflexivity. discriminate Ht.
Qed.

(** X18.  The accounts a successful poll worked on are the cached
    accounts of the refreshed object, and the next poll reuses them: it
    issues no request for the accounts. *)
Theorem accounts_survive_to_next_poll
    (s s1 : state) (nd : dict) (a : value) :
  keys_distinct = true ->
  cache_ok (self s) ->
  _async_update_data s = (Ok nd, s1) ->
  dict_get nd (KStr CONF_ACCOUNTS) = Some a ->
  cached_accounts (self (snd (async_refresh s))) = a
  /\ exists new,
       added _async_update_data (snd (async_refresh s)) new
       /\ Forall (fun cr => is_detail_call (fst cr)) new.
Proof.
  intros Hk Hcache Hrun Ha.
  pose proof (stored_accounts_not_none _ _ _ _ Hk Hcache Hrun Ha) as Hnn.
  destruct (async_refresh_final s) as (Hforce & _).
  set (s2 := snd (async_refresh s)) in *.
  assert (Hc : cached_accounts (self s2) = a).
  { unfold s2. rewrite async_refresh_state, Hrun. simpl.
    unfold cached_accounts, dget. simpl. rewrite Ha. reflexivity. }
  split; [exact Hc |].
  unfold added. destruct (poll_final_state s2) as (_ & ->).
  destruct (update_try_cases (timestamp s2) s2)
    as [(_ & Hu) | (Hcond & _)].
  - rewrite Hu.
    destruct (traced_fill_info (timestamp s2) (cached_accounts (self s2)) s2)
      as (new & Hn & F & _).
    eauto.
  - rewrite Hc, Hnn, Hforce in Hcond. discriminate.
Qed.

(** X17.  A forced refresh requests the accounts first, whatever the
    cache holds, and leaves the force flag off; when the answer is truthy
    and the poll succeeds, the answer replaces the cached accounts. *)
Theorem forced_refresh_requests_accounts (s : state) :
  force_next_update (self (snd (async_force_refresh s))) = false
  /\ exists r w new,
       remote GetAccounts (env s) = (r, w)
       /\ added async_force_refresh s (new ++ [(GetAccounts, r)])
       /\ Forall (fun cr => is_detail_call (fst cr)) new
       /\ (keys_distinct = true ->
           forall a,
             r = Ok a -> truthy a = true ->
             (exists e, fst (_async_update_data (flagged s)) = Raise e)
             \/ cached_accounts (self (snd (async_force_refresh s))) = a).
Proof.
  assert (E : async_force_refresh s = async_refresh (flagged s)) by reflexivity.
  unfold added. rewrite E.
  destruct (async_refresh_final (flagged s)) as (Hforce & Hcalls).
  split; [exact Hforce |].
  rewrite Hcalls. destruct (poll_final_state (flagged s)) as (_ & ->).
  destruct (update_try_cases (timestamp (flagged s)) (flagged s))
    as [(Hc & _) | (_ & r & w & Hr & Hu)].
  { simpl in Hc. rewrite orb_true_r in Hc. discriminate. }
  exists r, w. simpl in Hr.
  assert (Hcalls' : exists new,
             calls (snd (update_try (timestamp (flagged s)) (flagged s)))
             = (new ++ [(GetAccounts, r)]) ++ calls s
             /\ Forall (fun cr => is_detail_call (fst cr)) new).
  { rewrite Hu. destruct r as [a | e].
    - destruct (truthy a).
      + destruct (traced_fill_info (timestamp (flagged s)) a
                    (add_call GetAccounts (Ok a) w (flagged s)))
          as (new & Hn & F & _).
        exists new. unfold added in Hn. rewrite Hn, <- app_assoc.
        split; [reflexivity | assumption].
      + exists []. split; [reflexivity | constructor].
    - exists []. split; [reflexivity | constructor]. }
  destruct Hcalls' as (new & Hn & F). exists new.
  split; [assumption |]. split; [assumption |]. split; [assumption |].
  intros Hk a -> Ht.
  destruct (_async_update_data (flagged s)) as [[nd | e] s1] eqn:Hrun;
    [right | left; exists e; reflexivity].
  rewrite async_refresh_state, Hrun. simpl.
  unfold cached_accounts, dget. simpl.
  destruct (poll_ok_inv _ _ _ Hrun)
    as [(a0 & w0 & Hr0 & Hf0 & _) | (a0 & s0 & s1' & Hfill & _ & _ & Hs0)].
  - simpl in Hr0. rewrite Hr in Hr0. congruence.
  - destruct (fill_info_inv _ _ _ _ _ Hk Hfill) as (info & H1 & _).
    rewrite H1.
    destruct Hs0 as [(Hc & _) | (_ & _ & w0 & Hr0 & _)].
    + simpl in Hc. rewrite orb_true_r in Hc. discriminate.
    + simpl in Hr0. rewrite Hr in Hr0. congruence.
Qed.

(** ** The resolver on refreshed data *)

Lemma retrieve_entry (sh : shape) (a : value) (info : dict) (s s' : state)
    (k : key) (x : value) :
  retrieve sh a s = (Ok (VDict info), s') ->
  dict_get info k = Some x ->
  exists n v, k = KInt n /\ truthy v = true /\ x = stored sh v.
Proof.
  intros Hrun Hk.
  destruct (retrieve_loop sh a s) as [(_ & e & He) | Hl]; [congruence |].
  rewrite Hl in Hrun.
  destruct (for_each (items sh a) (step sh) [] s) as [[info' | e] s1] eqn:El;
    simpl in Hrun; [| discriminate].
  injection Hrun as <- <-.
  destruct (for_each_entries _ _ _ _ _ _ El) as (new & _ & Hs & _).
  destruct (Hs k x Hk) as [H | (n & v & -> & _ & Ht & ->)]; [discriminate |].
  eauto.
Qed.

Lemma dict_get_in (d : dict) (k : key) (x : value) :
  In (k, x) d -> exists x', dict_get d k = Some x'.
Proof.
  induction d as [| [k0 x0] d IH]; simpl; [intros [] |].
  intros [[= -> ->] | H].
  - rewrite key_eqb_refl. eauto.
  - destruct (key_eqb k0 k); eauto.
Qed.

(** X20.  After a refresh whose poll took the LSPU branch (or found
    neither shape), every account id of the data resolves to a non-empty
    list of sub-accounts: [get_lspu_accounts] cannot fail on the ids that
    [get_accounts] offers. *)
Theorem lspu_accounts_resolve_after_refresh
    (s s1 : state) (nd : dict) (a : value) :
  keys_distinct = true ->
  _async_update_data s = (Ok nd, s1) ->
  dict_get nd (KStr ATTR_IS_ELS) = Some (VBool false) ->
  In a (account_ids (self (snd (async_refresh s)))) ->
  exists y l,
    get_lspu_accounts (self (snd (async_refresh s))) a = Ok (VList (y :: l)).
Proof.
  intros Hk Hrun Hels.
  rewrite async_refresh_state, Hrun. simpl.
  unfold account_ids, get_lspu_accounts, get_accounts, is_els, data_value.
  simpl. rewrite Hels.
  destruct (poll_ok_inv _ _ _ Hrun)
    as [(a0 & w & _ & _ & -> & _) | (a0 & s0 & s1' & Hfill & _)].
  { apply timestamp_lookup in Hels. discriminate. }
  destruct (fill_info_inv _ _ _ _ _ Hk Hfill)
    as (info & _ & H2 & H3 & _ & Hb).
  rewrite H3. simpl.
  rewrite Hels in H2. injection H2 as H2.
  destruct Hb as [(Hb & _) | [(_ & _ & Hr) | (_ & _ & -> & _)]].
  - congruence.
  - rewrite in_map_iff. intros ([k x] & <- & Hin). simpl.
    destruct (dict_get_in _ _ _ Hin) as (x' & Hx').
    destruct (retrieve_entry LSPU _ _ _ _ _ _ Hr Hx') as (n & v & -> & Ht & ->).
    simpl. rewrite Hx'. simpl.
    destruct v as [| | | | | [| y l] | |]; simpl; try discriminate Ht; eauto.
  - destruct (keys_distinct_sym Hk) as (_ & _ & _ & S4 & _).
    rewrite dict_get_set_other in H3 by exact S4.
    rewrite dict_get_set_same in H3. injection H3 as <-. intros [].
Qed.

(** X22.  The alias of an account is read from the very record its
    number is read from: for any account id and sub-account index,
    [get_account_alias] returns a value exactly when [get_account_number]
    does, and raises with it otherwise. *)
Theorem alias_readable_with_number (c : coordinator) (a i : value) :
  (exists number, get_account_number c a i = Ok number)
  <-> (exists alias, get_account_alias c a i = Ok alias).
Proof.
  unfold get_account_number, get_account_alias.
  destruct (get_accounts c) as [accounts | e]; simpl;
    [| split; intros (x & H); discriminate].
  destruct (getitem accounts a) as [account | e]; simpl;
    [| split; intros (x & H); discriminate].
  destruct (is_els c) as [els | e]; simpl;
    [| split; intros (x & H); discriminate].
  destruct (truthy els).
  - destruct (Py.get account ATTR_ELS (VDict [])) as [r | e]; simpl;
      [| split; intros (x & H); discriminate].
    destruct r; simpl; split; intros (x & H); try discriminate; eauto.
  - destruct (getitem account i) as [r | e]; simpl;
      [| split; intros (x & H); discriminate].
    destruct r; simpl; split; intros (x & H); try discriminate; eauto.
Qed.

End Properties.

(** C4, as stated, fails: with an empty list under [lspu] and accounts under
    [lspuGroup], the first non-null value is the empty list, yet the code
    returns the accounts of [lspuGroup]. *)
Lemma get_lspu_list_not_first_present :
  let accounts_info :=
    VDict [(KStr "lspu", VList []);
           (KStr "lspuGroup", VList [VDict [(KStr "id", VInt 1)]])] in
  _get_lspu_list accounts_info
  <> lspu_list_by (fun v => negb (is_none v)) accounts_info.
Proof. discriminate. Qed.

(** ** Construction and bills *)

Section SetupProperties.

Context {consts : Consts} {host : Host} {config : Config} {billing : Billing}.

(** X16.  Unlike sending a reading, fetching a bill tolerates a device
    that matches no counter: it returns [None] and asks nothing.  For a
    resolved device it asks for the receipt of the given day (today when
    none is given) with the account id of the path and the shape flag; an
    exception of the lookup leaves it as it is.  In no case does it touch
    the object or issue one of the traced requests. *)
Theorem get_bill_tolerates_unresolved
    (device_id : string) (bill_date : option date) (email : value) (s : state) :
  (find_account_by_device_id (self s) device_id = Ok (None, None, None) ->
   async_get_bill device_id bill_date email s = (Ok VNone, s))
  /\ (forall a i k,
        find_account_by_device_id (self s) device_id
        = Ok (Some a, Some i, Some k) ->
        exists els,
          is_els (self s) = Ok els
          /\ async_get_bill device_id bill_date email s
             = _async_get_receipt (bill_day bill_date s) email a els s)
  /\ (forall e,
        find_account_by_device_id (self s) device_id = Raise e ->
        async_get_bill device_id bill_date email s = (Raise e, s))
  /\ calls (snd (async_get_bill device_id bill_date email s)) = calls s
  /\ self (snd (async_get_bill device_id bill_date email s)) = self s.
Proof.
  assert (Hrcp : forall d e a i,
            calls (snd (_async_get_receipt d e a i s)) = calls s
            /\ self (snd (_async_get_receipt d e a i s)) = self s).
  { intros d e a i. unfold _async_get_receipt.
    destruct (receipt d e a i (env s)). auto. }
  unfold async_get_bill, bind, get_self, lift, ret. fold (bill_day bill_date s).
  destruct (find_account_by_device_id (self s) device_id)
    as [[[oa oi] ok] | e] eqn:Hfind.
  - destruct (find_sound _ _ _ _ _ Hfind)
      as [(-> & -> & ->) | (ids & a & i & k & _ & -> & -> & -> & R)].
    + repeat split; auto; try discriminate.
    + destruct R as [accounts account number counters counter uuid els
                     Hels _ _ _ _ _ _ _ _ _ _ _ _].
      rewrite Hels. repeat split; try discriminate; try apply Hrcp.
      intros a' i' k' [= <- <- <-]. exists els. auto.
  - repeat split; auto; try discriminate.
    intros e' [= <-]. reflexivity.
Qed.

(** X21.  A coordinator as [__init__] leaves it has nothing cached: its
    first poll starts with the request for the accounts, and when the
    entry carries no auto-update setting no interval is scheduled. *)
Theorem first_poll_after_init
    (entry : dict) (registry : string -> option identifiers)
    (c : coordinator) (s : state) :
  __init__ entry registry = Ok c ->
  self s = c ->
  cache_ok c
  /\ (exists r w new,
        remote GetAccounts (env s) = (r, w)
        /\ added _async_update_data s (new ++ [(GetAccounts, r)])
        /\ Forall (fun cr => is_detail_call (fst cr)) new)
  /\ (dict_get entry (KStr CONF_AUTO_UPDATE) = None ->
      update_interval (self (snd (_async_update_data s))) = None).
Proof.
  unfold __init__. intros H Hs.
  apply rbind_ok in H as (u & _ & H).
  apply rbind_ok in H as (p & _ & H).
  apply rbind_ok in H as (auto & Hauto & H).
  injection H as <-.
  split; [reflexivity |]. split.
  - unfold added. destruct (poll_final_state s) as (_ & ->).
    destruct (update_try_cases (timestamp s) s)
      as [(Hc & _) | (_ & r & w & Hr & Hu)].
    { rewrite Hs in Hc. discriminate. }
    exists r, w. rewrite Hu. destruct r as [a | e].
    + destruct (truthy a).
      * destruct (traced_fill_info (timestamp s) a
                    (add_call GetAccounts (Ok a) w s)) as (new & Hn & F & _).
        exists new. unfold added in Hn. rewrite Hn, <- app_assoc.
        split; [assumption |]. split; [reflexivity | assumption].
      * exists []. split; [assumption |]. split; [reflexivity | constructor].
    + exists []. split; [assumption |]. split; [reflexivity | constructor].
  - intros Hnone. simpl in Hauto. rewrite Hnone in Hauto.
    injection Hauto as <-.
    destruct (poll_run s) as (r0 & s1 & r2 & s2 & Ht & Hf & Hp).
    assert (Hs1 : self s1 = self s).
    { rewrite <- (update_try_self (timestamp s) s), Ht. reflexivity. }
    rewrite Hp. simpl.
    destruct (update_finally_cases s1)
      as [(_ & H) | [(Ha & _) | (Ha & _)]].
    + rewrite H in Hf. injection Hf as <- <-. reflexivity.
    + rewrite Hs1, Hs in Ha. discriminate.
    + rewrite Hs1, Hs in Ha. discriminate.
Qed.

End SetupProperties.

Import Sample.

(** ** Balance extraction on concrete inputs *)

(** The four results the specification lists for the balance extractor. *)
Lemma extract_balance_examples :
  _extract_balance_from_info
    (VDict [(KStr "a", VList [VDict [(KStr "services",
       VList [VDict [(KStr "balance", VFloat twelve_and_a_half)]])]])])
  = Ok (Some twelve_and_a_half)
  /\ _extract_balance_from_info
       (VDict [(KStr "a", VList [VDict [(KStr "balance", VInt 7)]])])
     = Ok (Some (float_of_Z 7))
  /\ _extract_balance_from_info
       (VDict [(KStr "a", VList [VDict [(KStr "balance", VStr "bad")]])])
     = Ok None
  /\ _extract_balance_from_info (VDict []) = Ok None.
Proof. repeat split; reflexivity. Qed.

(** C5.  The extractor does raise: an integer balance beyond the range of
    a float makes [float(...)] raise [OverflowError], which the handler for
    [TypeError] and [ValueError] does not catch. *)
Theorem extract_balance_overflow_escapes :
  _extract_balance_from_info
    (VDict [(KStr "a", VList [VDict [(KStr "balance", VInt (10 ^ 400))]])])
  = Raise (Exn OverflowError "int too large to convert to float").
Proof. vm_compute. reflexivity. Qed.

(** ** The properties at the sample installation *)

(** C7, as stated, fails: an id that is truthy but not an integer literal
    is not skipped; [int(...)] raises, the batch stops before any request
    and the valid item after it is never fetched. *)
Lemma fetcher_aborts_on_bad_id :
  let accounts_info :=
    VDict [str_key "elsGroup" (VList [els_item (VStr "abc"); els_item (VInt 21)])] in
  let s := start false els_service in
  retrieve_els_accounts_info accounts_info s
  = (Raise (Exn ValueError "invalid literal for int() with base 10"), s).
Proof. reflexivity. Qed.

Lemma accounts_cache_policy_witness :
  let s0 := start true lspu_service in
  let s1 := polled true lspu_service in
  (exists r w new,
     remote GetAccounts (env s0) = (r, w)
     /\ added _async_update_data s0 (new ++ [(GetAccounts, r)]))
  /\ (exists new,
        added _async_update_data s1 new
        /\ Forall (fun cr => is_detail_call (fst cr)) new).
Proof.
  intros s0 s1. split.
  - assert (H0 : cache_ok (self s0)) by reflexivity.
    assert (Hk : keys_distinct = true) by reflexivity.
    assert (Hw : window_ok (self s0)) by (intros _; reflexivity).
    destruct (accounts_cache_policy s0 H0 Hk Hw) as [_ H].
    destruct (H (or_introl eq_refl)) as (r & w & new & Hr & Ha & _).
    exists r, w, new. split; assumption.
  - assert (H1 : cache_ok (self s1)) by reflexivity.
    assert (Hk : keys_distinct = true) by reflexivity.
    assert (Hw : window_ok (self s1)) by (intros _; reflexivity).
    destruct (accounts_cache_policy s1 H1 Hk Hw) as [H _].
    exact (proj1 (H eq_refl eq_refl)).
Defined.

Lemma poll_failure_mapping_witness :
  fst (_async_update_data (start true auth_service))
  = Raise (Exn ConfigEntryAuthFailed "Incorrect Login or Password")
  /\ fst (_async_update_data (start true flaky_service))
     = Raise (Exn UpdateFailed "Error communicating with API: Gateway timeout").
Proof.
  split.
  - assert (Hw : window_ok (self (start true auth_service)))
      by (intros _; reflexivity).
    destruct (poll_failure_mapping (start true auth_service) Hw) as [_ H].
    refine (proj1 (H [(GetAccounts, Raise (Exn MyGasAuthError "Unauthorized"))]
                     GetAccounts _ eq_refl (or_introl eq_refl)) eq_refl).
  - assert (Hw : window_ok (self (start true flaky_service)))
      by (intros _; reflexivity).
    destruct (poll_failure_mapping (start true flaky_service) Hw) as [_ H].
    refine (proj2 (H [(GetLspuInfo 11,
                       Raise (Exn (OtherError "MyGasApiError") "Gateway timeout"));
                      (GetAccounts, Ok lspu_accounts)]
                     (GetLspuInfo 11) _ eq_refl (or_introl eq_refl)) _).
    discriminate.
Defined.

Lemma els_takes_priority_witness :
  let s := start true els_service in
  exists new_data s',
    _async_update_data s = (Ok new_data, s')
    /\ dict_get new_data (KStr CONF_ACCOUNTS) = Some els_accounts
    /\ dict_get new_data (KStr ATTR_IS_ELS) = Some (VBool true).
Proof.
  intros s.
  destruct (_async_update_data s) as [[new_data | e] s'] eqn:E;
    [| vm_compute in E; discriminate E].
  exists new_data, s'. split; [reflexivity |].
  assert (Ha : dict_get new_data (KStr CONF_ACCOUNTS) = Some els_accounts).
  { vm_compute in E. injection E as <- _. reflexivity. }
  split; [exact Ha |].
  exact (proj1 (els_takes_priority s s' new_data _ eq_refl E Ha eq_refl)).
Defined.

Lemma force_flag_one_shot_witness :
  let s := forced true lspu_service in
  force_next_update (self s) = true
  /\ force_next_update (self (snd (_async_update_data s))) = false
  /\ exists r new, added _async_update_data s (new ++ [(GetAccounts, r)]).
Proof.
  intros s. split; [reflexivity |].
  destruct (force_flag_one_shot s) as [H1 H2]. split; [exact H1 |].
  destruct (H2 eq_refl) as (r & new & Ha & _). exists r, new. exact Ha.
Defined.

Lemma fetchers_skip_and_continue_witness :
  let s := start false els_service in
  for_each [VDict []; els_item (VInt 21)] (step ELS) [] s
  = for_each [els_item (VInt 21)] (step ELS) [] (add_warning warn_no_els_id s)
  /\ for_each [VDict [str_key "id" (VInt 11)]] (step LSPU) [] s
     = (Ok [], add_warning warn_no_lspu_info
                 (add_call (GetLspuInfo 11) (Ok VNone) (env s) s)).
Proof.
  intros s. split.
  - destruct (fetchers_skip_and_continue ELS (VDict []) VNone
                [els_item (VInt 21)] [] s) as [H _].
    destruct (H eq_refl) as [H1 _]. exact (H1 eq_refl).
  - destruct (fetchers_skip_and_continue LSPU (VDict [str_key "id" (VInt 11)])
                (VInt 11) [] [] s) as [H _].
    destruct (H eq_refl) as (_ & H2 & _).
    exact (H2 11%Z VNone (env s) eq_refl eq_refl eq_refl).
Defined.


Lemma send_readings_all_or_nothing_witness :
  let s := polled false lspu_service in
  async_send_readings "dev-9" (VInt 5) s = (Raise (Exn AssertionError ""), s)
  /\ exists uuid els,
       async_send_readings "dev-2" (VInt 5) s
       = request (IndicationSend (VInt 501) uuid (VInt 5)
                    (if truthy els then VInt 11 else VNone)) s.
Proof.
  intros s.
  destruct (send_readings_all_or_nothing "dev-9" (VInt 5) s) as (H1 & _).
  split; [exact (H1 None None None eq_refl (or_introl eq_refl)) |].
  destruct (send_readings_all_or_nothing "dev-2" (VInt 5) s) as (_ & _ & H3 & _).
  destruct (H3 (VInt 11) 0%Z 1%Z (VList [lspu_detail]) lspu_detail (VInt 501)
              eq_refl eq_refl eq_refl eq_refl)
    as (counters & counter & uuid & els & _ & _ & _ & _ & H).
  exists uuid, els. exact H.
Defined.

Lemma device_round_trip_witness :
  let c := self (polled false lspu_service) in
  find_account_by_device_id c "dev-2" = Ok (Some (VInt 11), Some 0%Z, Some 1%Z)
  /\ exists ids number uuid,
       devices c "dev-2" = Some ids
       /\ forall x, In x ids -> x = (DOMAIN, make_device_id number uuid).
Proof.
  intros c.
  assert (Hfind : find_account_by_device_id c "dev-2"
                  = Ok (Some (VInt 11), Some 0%Z, Some 1%Z)) by reflexivity.
  split; [exact Hfind |].
  destruct (device_round_trip c "dev-2" (VInt 11) 0%Z 1%Z Hfind)
    as (ids & number & counters & counter & uuid & Hd & _ & _ & _ & _ & _ & H).
  exists ids, number, uuid. split; assumption.
Defined.

(** ** The further properties at the sample installation *)

Lemma extract_balance_escapes_only_overflow_witness :
  let info :=
    VDict [(KStr "a", VList [VDict [(KStr "balance", VInt (10 ^ 400))]])] in
  let e := Exn OverflowError "int too large to convert to float" in
  _extract_balance_from_info info = Raise e
  /\ exn_cls e = OverflowError
  /\ exists z, float_ (VInt z) = Raise e.
Proof.
  intros info e.
  assert (H : _extract_balance_from_info info = Raise e)
    by (vm_compute; reflexivity).
  split; [exact H |].
  exact (extract_balance_escapes_only_overflow info e H).
Defined.

Lemma extract_balance_first_entry_decides_witness :
  let entry := VList [VDict [(KStr "balance", VInt 7)]] in
  _extract_balance_from_info
    (VDict [(KStr "x", VInt 3); (KStr "a", entry);
            (KStr "z", VList [VDict [(KStr "balance", VStr "bad")]])])
  = _extract_balance_from_info (VDict [(KStr "a", entry)]).
Proof.
  intros entry.
  exact (extract_balance_first_entry_decides
           [(KStr "x", VInt 3)]
           [(KStr "z", VList [VDict [(KStr "balance", VStr "bad")]])]
           (KStr "a") entry (Ok (float_of_Z 7)) eq_refl eq_refl).
Defined.

Lemma poll_balance_not_negative_witness :
  let s := start true lspu_service in
  exists nd s' f,
    _async_update_data s = (Ok nd, s')
    /\ dict_get nd (KStr ATTR_BALANCE) = Some (VFloat f)
    /\ not_negative f.
Proof.
  intros s.
  destruct (_async_update_data s) as [[nd | e] s'] eqn:E;
    [| vm_compute in E; discriminate E].
  assert (Hb : dict_get nd (KStr ATTR_BALANCE) = Some (VFloat (float_of_Z 3))).
  { vm_compute in E. injection E as <- _. reflexivity. }
  assert (Hk : keys_distinct = true) by reflexivity.
  assert (Hts : String.eqb ATTR_LAST_UPDATE_TIME ATTR_BALANCE = false)
    by reflexivity.
  destruct (poll_balance_not_negative s s' nd _ Hk Hts E Hb)
    as (f & Hf & Hn).
  exists nd, s', f. rewrite <- Hf. repeat split; assumption.
Defined.

Lemma lspu_branch_without_els_witness :
  let s := start true lspu_service in
  exists nd s',
    _async_update_data s = (Ok nd, s')
    /\ dict_get nd (KStr CONF_ACCOUNTS) = Some lspu_accounts
    /\ dict_get nd (KStr ATTR_IS_ELS) = Some (VBool false).
Proof.
  intros s.
  destruct (_async_update_data s) as [[nd | e] s'] eqn:E;
    [| vm_compute in E; discriminate E].
  assert (Ha : dict_get nd (KStr CONF_ACCOUNTS) = Some lspu_accounts).
  { vm_compute in E. injection E as <- _. reflexivity. }
  assert (Hne : _get_lspu_list lspu_accounts <> []) by discriminate.
  exists nd, s'. split; [reflexivity |]. split; [exact Ha |].
  assert (Hk : keys_distinct = true) by reflexivity.
  assert (Hels : truthy (els_group lspu_accounts) = false) by reflexivity.
  exact (proj1 (lspu_branch_without_els s s' nd lspu_accounts
                  Hk E Ha Hels Hne)).
Defined.

Lemma empty_shape_poll_succeeds_witness :
  let s := start true bare_service in
  fst (_async_update_data s) = Ok (empty_result s bare_accounts)
  /\ warnings (snd (_async_update_data s)) = [warn_no_shape].
Proof.
  intros s.
  assert (Hw : window_ok (self s)) by (intros _; reflexivity).
  assert (Hsrc :
    (is_none (cached_accounts (self s)) || force_next_update (self s) = false
     /\ bare_accounts = cached_accounts (self s))
    \/ (is_none (cached_accounts (self s)) || force_next_update (self s) = true
        /\ truthy bare_accounts = true
        /\ exists w, remote GetAccounts (env s) = (Ok bare_accounts, w))).
  { right. split; [reflexivity |]. split; [reflexivity |].
    exists (env s). reflexivity. }
  assert (Hels : truthy (els_group bare_accounts) = false) by reflexivity.
  assert (Hl : _get_lspu_list bare_accounts = []) by reflexivity.
  destruct (empty_shape_poll_succeeds s bare_accounts Hw Hels Hl Hsrc)
    as (H1 & H2 & _).
  split; assumption.
Defined.

Lemma poll_result_shape_witness :
  let s := start true lspu_service in
  exists nd s' a info,
    _async_update_data s = (Ok nd, s')
    /\ dict_get nd (KStr CONF_ACCOUNTS) = Some a
    /\ dict_get nd (KStr ATTR_IS_ELS) = Some (VBool (truthy (els_group a)))
    /\ dict_get nd (KStr CONF_INFO) = Some (VDict info).
Proof.
  intros s.
  destruct (_async_update_data s) as [[nd | e] s'] eqn:E;
    [| vm_compute in E; discriminate E].
  assert (Hk : keys_distinct = true) by reflexivity.
  destruct (poll_result_shape s s' nd Hk E) as [H | (a & info & H)].
  - exfalso. subst nd. vm_compute in E. discriminate E.
  - exists nd, s', a, info. split; [reflexivity | exact H].
Defined.

Lemma empty_window_fails_every_poll_witness :
  let s := start true lspu_service in
  exists e,
    fst (@_async_update_data closed_window host s) = Raise e
    /\ exn_cls e = ValueError.
Proof.
  intros s.
  assert (Hw : (@UPDATE_HOUR_END closed_window
                <= @UPDATE_HOUR_BEGIN closed_window)%Z) by (simpl; lia).
  assert (Ha : auto_update (self s) = true) by reflexivity.
  exact (proj1 (@empty_window_fails_every_poll closed_window host s
                  Ha Hw)).
Defined.

Lemma fetched_entries_match_answers_witness :
  let s := start false lspu_service in
  exists info s',
    retrieve LSPU lspu_accounts s = (Ok (VDict info), s')
    /\ has_key info (KInt 11) = true.
Proof.
  intros s.
  destruct (retrieve LSPU lspu_accounts s) as [[[| | | | | | info |] | e] s']
    eqn:E; try (vm_compute in E; discriminate E).
  exists info, s'. split; [reflexivity |].
  destruct (fetched_entries_match_answers LSPU lspu_accounts info s s' E)
    as (new & Hadd & _ & Hc).
  apply (Hc 11%Z lspu_detail); [| reflexivity].
  assert (Hnew : new = [(GetLspuInfo 11, Ok lspu_detail)]).
  { unfold added in Hadd. rewrite E in Hadd.
    apply (app_inv_tail (calls s)). rewrite <- Hadd.
    vm_compute in E. injection E as _ <-. reflexivity. }
  rewrite Hnew. left. reflexivity.
Defined.

Lemma fetched_entries_well_formed_witness :
  let s := start false lspu_service in
  exists info s' y l,
    retrieve LSPU lspu_accounts s = (Ok (VDict info), s')
    /\ dict_get info (KInt 11) = Some (VList (y :: l)).
Proof.
  intros s.
  destruct (retrieve LSPU lspu_accounts s) as [[[| | | | | | info |] | e] s']
    eqn:E; try (vm_compute in E; discriminate E).
  assert (Hk : dict_get info (KInt 11) = Some (VList [lspu_detail])).
  { vm_compute in E. injection E as <- _. reflexivity. }
  destruct (fetched_entries_well_formed LSPU lspu_accounts info s s'
              (KInt 11) _ E Hk) as (_ & _ & y & l & Hx).
  exists info, s', y, l. rewrite <- Hx. split; [reflexivity | exact Hk].
Defined.

Lemma failed_request_ends_batch_witness :
  let s := start false flaky_service in
  let e := Exn (OtherError "MyGasApiError") "Gateway timeout" in
  fst (retrieve LSPU lspu_accounts s) = Raise e.
Proof.
  intros s e.
  assert (Hadd : added (retrieve LSPU lspu_accounts) s
                   [(GetLspuInfo 11, Raise e)]) by reflexivity.
  exact (proj1 (failed_request_ends_batch LSPU lspu_accounts s
                  [(GetLspuInfo 11, Raise e)] (GetLspuInfo 11) e
                  Hadd (or_introl eq_refl))).
Defined.

Lemma find_returns_whole_paths_witness :
  let c := self (polled false lspu_service) in
  on_scan c (VInt 11) 0 1.
Proof.
  intros c.
  assert (Hfind : find_account_by_device_id c "dev-2"
                  = Ok (Some (VInt 11), Some 0%Z, Some 1%Z)) by reflexivity.
  destruct (find_returns_whole_paths c "dev-2" _ _ _ Hfind)
    as [(H & _) | (a & i & k & Ha & Hi & Hk & Hscan)]; [discriminate H |].
  injection Ha as <-. injection Hi as <-. injection Hk as <-. exact Hscan.
Defined.

Lemma find_nothing_means_no_match_witness :
  let c := self (polled false lspu_service) in
  find_account_by_device_id c "dev-9" = Ok (None, None, None)
  /\ is_singleton [("mygas", "none")] ("mygas", "0042_u-2") = false.
Proof.
  intros c.
  assert (Hfind : find_account_by_device_id c "dev-9" = Ok (None, None, None))
    by reflexivity.
  split; [exact Hfind |].
  assert (Hscan : on_scan c (VInt 11) 0 1).
  { exists (VDict [(KInt 11, VList [lspu_detail])]), [VInt 11],
      (VList [lspu_detail]), 1%nat,
      (VList [counter "u-1"; counter "u-2"]), 2%nat.
    repeat split; try reflexivity; try lia. left. reflexivity. }
  assert (Hid : path_identifier c (VInt 11) 0 1 ("mygas", "0042_u-2")).
  { exists (VStr "0042"), (VList [counter "u-1"; counter "u-2"]),
      (counter "u-2"), (VStr "u-2").
    repeat split; reflexivity. }
  assert (Hd : devices c "dev-9" = Some [("mygas", "none")]) by reflexivity.
  exact (find_nothing_means_no_match c "dev-9" _ (VInt 11) 0 1 _
           Hd Hfind Hscan Hid).
Defined.

Lemma get_bill_tolerates_unresolved_witness :
  let s := polled false lspu_service in
  async_get_bill "dev-9" None VNone s = (Ok VNone, s)
  /\ exists els,
       async_get_bill "dev-2" None VNone s
       = _async_get_receipt "2024-10-04" VNone (VInt 11) els s.
Proof.
  intros s.
  destruct (get_bill_tolerates_unresolved "dev-9" None VNone s) as (H1 & _).
  assert (Hnone : find_account_by_device_id (self s) "dev-9"
                  = Ok (None, None, None)) by reflexivity.
  split; [exact (H1 Hnone) |].
  destruct (get_bill_tolerates_unresolved "dev-2" None VNone s)
    as (_ & H2 & _).
  assert (Hfind : find_account_by_device_id (self s) "dev-2"
                  = Ok (Some (VInt 11), Some 0%Z, Some 1%Z)) by reflexivity.
  destruct (H2 _ _ _ Hfind) as (els & _ & H). exists els. exact H.
Defined.

Lemma forced_refresh_requests_accounts_witness :
  let s := polled true lspu_service in
  cached_accounts (self s) = lspu_accounts
  /\ exists r new, added async_force_refresh s (new ++ [(GetAccounts, r)]).
Proof.
  intros s. split; [reflexivity |].
  destruct (forced_refresh_requests_accounts s)
    as (_ & r & w & new & _ & Ha & _).
  exists r, new. exact Ha.
Defined.

Lemma accounts_survive_to_next_poll_witness :
  let s := start true lspu_service in
  cached_accounts (self (snd (async_refresh s))) = lspu_accounts
  /\ exists new,
       added _async_update_data (snd (async_refresh s)) new
       /\ Forall (fun cr => is_detail_call (fst cr)) new.
Proof.
  intros s.
  destruct (_async_update_data s) as [[nd | e] s1] eqn:E;
    [| vm_compute in E; discriminate E].
  assert (Ha : dict_get nd (KStr CONF_ACCOUNTS) = Some lspu_accounts).
  { vm_compute in E. injection E as <- _. reflexivity. }
  assert (Hk : keys_distinct = true) by reflexivity.
  assert (Hc : cache_ok (self s)) by reflexivity.
  exact (accounts_survive_to_next_poll s s1 nd lspu_accounts Hk Hc E Ha).
Defined.

Lemma cache_ok_refresh_witness :
  cache_ok (self (snd (async_refresh (start true lspu_service)))).
Proof.
  assert (Hk : keys_distinct = true) by reflexivity.
  assert (Hc : cache_ok (self (start true lspu_service))) by reflexivity.
  exact (cache_ok_refresh (start true lspu_service) Hk Hc).
Defined.

Lemma lspu_accounts_resolve_after_refresh_witness :
  let s := start true lspu_service in
  exists y l,
    get_lspu_accounts (self (snd (async_refresh s))) (VInt 11)
    = Ok (VList (y :: l)).
Proof.
  intros s.
  destruct (_async_update_data s) as [[nd | e] s1] eqn:E;
    [| vm_compute in E; discriminate E].
  assert (He : dict_get nd (KStr ATTR_IS_ELS) = Some (VBool false)).
  { vm_compute in E. injection E as <- _. reflexivity. }
  assert (Hin : In (VInt 11) (account_ids (self (snd (async_refresh s))))).
  { left. reflexivity. }
  assert (Hk : keys_distinct = true) by reflexivity.
  exact (lspu_accounts_resolve_after_refresh s s1 nd (VInt 11)
           Hk E He Hin).
Defined.

Lemma first_poll_after_init_witness :
  exists c,
    __init__ entry_data registry = Ok c
    /\ cache_ok c
    /\ forall w,
         update_interval
           (self (snd (_async_update_data
                         {| self := c; calls := []; warnings := [];
                            env := w |}))) = None.
Proof.
  destruct (__init__ entry_data registry) as [c | e] eqn:E;
    [| vm_compute in E; discriminate E].
  exists c. split; [reflexivity |].
  assert (Hnone : dict_get entry_data (KStr CONF_AUTO_UPDATE) = None)
    by reflexivity.
  split.
  - exact (proj1 (first_poll_after_init entry_data registry c
                    {| self := c; calls := []; warnings := [];
                       env := {| answers := lspu_service; seed := 0 |} |}
                    E (eq_refl c))).
  - intros w.
    exact (proj2 (proj2 (first_poll_after_init entry_data registry c
                           {| self := c; calls := []; warnings := [];
                              env := w |} E (eq_refl c))) Hnone).
Defined.

Lemma alias_readable_with_number_witness :
  let c := self (polled false lspu_service) in
  get_account_number c (VInt 11) (VInt 0) = Ok (VStr "0042")
  /\ exists alias, get_account_alias c (VInt 11) (VInt 0) = Ok alias.
Proof.
  intros c.
  assert (Hn : get_account_number c (VInt 11) (VInt 0) = Ok (VStr "0042"))
    by reflexivity.
  split; [exact Hn |].
  exact (proj1 (alias_readable_with_number c (VInt 11) (VInt 0))
           (ex_intro _ (VStr "0042") Hn)).
Defined.
